(** * pikepdf: the [_qpdf] extension module (src/qpdf.cpp)

    The module is a pybind11 binding over libqpdf.  [Binding] embeds the
    functions of src/qpdf.cpp ([kwargs_to_method], [fsencode_filename],
    [open_pdf], the exception translator and the [save] lambda); the Python
    runtime and libqpdf, which the file only calls, are the interfaces
    [PyRuntime] and [Libqpdf].  [Engine] models, from the specification,
    the document engine behind the calls [pages], [remove_page],
    [_get_object_id] and [get_warnings]. *)

From Stdlib Require Import ZArith.
From stdpp Require Import gmap strings list.
From Equations Require Import Equations.

#[local] Set Warnings "-clear-no-such-hyp".

(** ** The binding *)

Module Binding.

(** C++ exceptions that can leave a bound function. *)
Inductive exn : Type :=
| value_error (msg : string)          (* py::value_error *)
| type_error (msg : string)           (* py::type_error *)
| cast_error                          (* py::cast_error *)
| error_already_set (pyexc : string)  (* a Python exception raised by a Python callee *)
| QPDFExc (code : Z) (what : string)  (* libqpdf's exception and its getErrorCode() *)
| std_exception (what : string).      (* any other C++ exception *)

Inductive result (A : Type) : Type :=
| Ok (a : A)
| Throw (e : exn).
Arguments Ok {A} a.
Arguments Throw {A} e.

(** What a call into Python gives back: a value, or a Python exception,
    which pybind11 rethrows in C++ as [py::error_already_set]. *)
Inductive pyresult (A : Type) : Type :=
| Returns (a : A)
| Raises (pyexc : string).
Arguments Returns {A} a.
Arguments Raises {A} pyexc.

Definition from_python {A} (r : pyresult A) : result A :=
  match r with
  | Returns a => Ok a
  | Raises pyexc => Throw (error_already_set pyexc)
  end.

(** Modelled from the spec: qpdf/Constants.h, which declares the stream
    data modes of QPDFWriter, is not part of the sources; section 4.6
    lists the three modes (re-compress, leave as is, uncompress) and
    src/qpdf.cpp names [qpdf_s_uncompress]. *)
Inductive qpdf_stream_data_e : Type :=
| qpdf_s_uncompress
| qpdf_s_preserve
| qpdf_s_compress.

(** The Python exception classes the module registers (lines 123-124). *)
Inductive py_exception : Type :=
| PDFError (msg : string)        (* exc_main *)
| PasswordError (msg : string).  (* exc_password *)

(** The settings of a QPDFWriter that the module touches. *)
Record QPDFWriter (QPDF : Type) : Type := mkWriter {
  w_pdf : QPDF;
  w_filename : string;
  w_static_id : bool;
  w_stream_data_mode : qpdf_stream_data_e
}.
Arguments mkWriter {QPDF} _ _ _ _.
Arguments w_pdf {QPDF} _.
Arguments w_filename {QPDF} _.
Arguments w_static_id {QPDF} _.
Arguments w_stream_data_mode {QPDF} _.

(** The Python runtime, as pybind11 shows it to the module. *)
Class PyRuntime : Type := {
  PyObj : Type;                                  (* py::object *)
  hasattr : PyObj -> string -> bool;             (* py::hasattr *)
  isinstance_TextIOBase : PyObj -> bool;         (* py::isinstance(o, io.TextIOBase) *)
  call_read : PyObj -> pyresult PyObj;             (* o.read() *)
  cast_string : PyObj -> option string;          (* o.cast<std::string>() *)
  cast_bool : PyObj -> option bool;              (* o.cast<bool>() *)
  cast_bytes : PyObj -> option string;           (* the buffer of o, when o is a bytes object *)
  not_bytes : PyObj -> string;                   (* what py::bytes(o) says of an o that is none *)
  fspath : PyObj -> pyresult PyObj;              (* pikepdf._cpphelpers.fspath *)
  repair_pdfa : PyObj -> pyresult unit           (* pikepdf._cpphelpers.repair_pdfa *)
}.

(** libqpdf, as far as src/qpdf.cpp calls it. *)
Class Libqpdf : Type := {
  QPDF : Type;
  QPDF_new : QPDF;                               (* std::make_unique<QPDF>() *)
  setSuppressWarnings : bool -> QPDF -> QPDF;
  setIgnoreXRefStreams : bool -> QPDF -> QPDF;
  setAttemptRecovery : bool -> QPDF -> QPDF;
  processMemoryFile : QPDF -> string -> string -> string -> result QPDF;
  processFile : QPDF -> string -> string -> result QPDF;
  qpdf_e_password : Z;                           (* qpdf/Constants.h *)
  default_stream_data_mode : qpdf_stream_data_e; (* of a fresh QPDFWriter *)
  QPDFWriter_open : QPDF -> string -> result unit; (* the constructor opens the output file *)
  QPDFWriter_write : QPDFWriter QPDF -> result unit
}.

Section Binding.

Context {py : PyRuntime} {lib : Libqpdf}.

Definition setStaticID (b : bool) (w : QPDFWriter QPDF) : QPDFWriter QPDF :=
  mkWriter (w_pdf w) (w_filename w) b (w_stream_data_mode w).

Definition setStreamDataMode (m : qpdf_stream_data_e) (w : QPDFWriter QPDF) : QPDFWriter QPDF :=
  mkWriter (w_pdf w) (w_filename w) (w_static_id w) m.

(** *** Effects

    Calls that leave the module are recorded in a trace, in order. *)
Inductive event : Type :=
| EvRead (stream : PyObj)                               (* stream.read() *)
| EvFspath (o : PyObj)                                  (* fspath(o) *)
| EvProcessMemoryFile (q : QPDF) (buffer password : string)
| EvProcessFile (q : QPDF) (filename password : string)
| EvWriterOpen (q : QPDF) (filename : string)
| EvWrite (w : QPDFWriter QPDF)
| EvRepairPdfa (o : PyObj).

(** A computation yields the calls it made and a value or an exception. *)
Definition M (A : Type) : Type := (list event * result A)%type.

Definition ret {A} (a : A) : M A := ([], Ok a).
Definition throw {A} (e : exn) : M A := ([], Throw e).
Definition bind {A B} (m : M A) (k : A -> M B) : M B :=
  match snd m with
  | Ok a => (fst m ++ fst (k a), snd (k a))
  | Throw e => (fst m, Throw e)
  end.
Definition call {A} (ev : event) (r : result A) : M A := ([ev], r).

(** [try { m } catch (py::cast_error&) { throw e; }] *)
Definition catch_cast_error {A} (m : M A) (e : exn) : M A :=
  match snd m with
  | Throw cast_error => (fst m, Throw e)
  | _ => m
  end.

Definition trace {A} (m : M A) : list event := fst m.
Definition outcome {A} (m : M A) : result A := snd m.

#[local] Instance M_ret : MRet M := @ret.
#[local] Instance M_bind : MBind M := fun A B k m => bind m k.

(** [o.cast<T>()]: throws py::cast_error when the conversion fails. *)
Definition cast {T} (c : PyObj -> option T) (o : PyObj) : M T :=
  match c o with
  | Some v => ret v
  | None => throw cast_error
  end.

(** Lines 94-98, [pydata.cast<py::bytes>()] and the buffer of the result.
    For a Python object type, [cast] is the converting constructor of
    [py::bytes], not a caster: it never throws py::cast_error.  From
    pybind11 2.6 on it throws py::type_error on an object that is no
    bytes object, which is what is modelled; before 2.6 it does not check,
    line 98 then leaves [buffer] and [length] unset, and what the module
    does has no definition. *)
Definition to_bytes (o : PyObj) : M string :=
  match cast_bytes o with
  | Some data => ret data
  | None => throw (type_error (not_bytes o))
  end.

(** Lines 27-38. *)
Definition kwargs_to_method (kwargs : gmap string PyObj) (key : string)
    (q : QPDF) (callback : bool -> QPDF -> QPDF) : M QPDF :=
  catch_cast_error
    (match kwargs !! key with
     | Some o => v ← cast cast_bool o; ret (callback v q)
     | None => ret q
     end)
    (type_error (key +:+ ": unsupported argument type")).

(** Lines 46-59. *)
Definition fsencode_filename (py_filename : PyObj) : M string :=
  catch_cast_error
    (py_encoded_filename ← call (EvFspath py_filename) (from_python (fspath py_filename));
     cast cast_string py_encoded_filename)
    (type_error "expected pathlike object").

(** Lines 61-110.  [if (kwargs)] tests the handle, which pybind11 always
    sets for a [py::kwargs] parameter; with no keyword the three lookups
    below find nothing. *)
Definition open_pdf (args : list PyObj) (kwargs : gmap string PyObj) : M QPDF :=
  let q := QPDF_new in
  if (length args <? 1)%nat then throw (value_error "not enough arguments") else
  if (2 <? length args)%nat then throw (value_error "too many arguments") else
  let q := setSuppressWarnings true q in
  password ← match kwargs !! "password" with
              | Some o => cast cast_string o
              | None => ret ""
              end;
  q ← kwargs_to_method kwargs "ignore_xref_streams" q setIgnoreXRefStreams;
  q ← kwargs_to_method kwargs "suppress_warnings" q setSuppressWarnings;
  q ← kwargs_to_method kwargs "attempt_recovery" q setAttemptRecovery;
  match args !! 0%nat with
  | None => throw (error_already_set "IndexError")
  | Some a0 =>
      if hasattr a0 "read" && hasattr a0 "seek" then
        let stream := a0 in
        if isinstance_TextIOBase stream then
          throw (type_error "stream must be binary, readable and seekable")
        else
          pydata ← call (EvRead stream) (from_python (call_read stream));
          data ← to_bytes pydata;
          call (EvProcessMemoryFile q data password)
               (processMemoryFile q "memory" data password)
      else
        filename ← fsencode_filename a0;
        call (EvProcessFile q filename password)
             (processFile q filename password)
  end.

(** Lines 125-135: the translator handles [QPDFExc] only; any other
    exception leaves the lambda and goes to pybind11's own translators. *)
Definition exception_translator (p : exn) : option py_exception :=
  match p with
  | QPDFExc code what =>
      if (code =? qpdf_e_password)%Z then Some (PasswordError what)
      else Some (PDFError what)
  | _ => None
  end.

(** Lines 193-214. *)
Definition save (q : QPDF) (filename : PyObj) (static_id preserve_pdfa : bool) : M unit :=
  fn ← fsencode_filename filename;
  call (EvWriterOpen q fn) (QPDFWriter_open q fn);;
  let w := mkWriter q fn false default_stream_data_mode in
  let w := if static_id
           then setStreamDataMode qpdf_s_uncompress (setStaticID true w)
           else w in
  call (EvWrite w) (QPDFWriter_write w);;
  if preserve_pdfa then call (EvRepairPdfa filename) (from_python (repair_pdfa filename))
  else ret tt.

(** The keyword arguments that [open_pdf] converts do convert. *)
Definition kwargs_convert (kwargs : gmap string PyObj) : Prop :=
  (forall o, kwargs !! "password" = Some o -> is_Some (cast_string o)) /\
  (forall key o,
     key ∈ ["ignore_xref_streams"; "suppress_warnings"; "attempt_recovery"] ->
     kwargs !! key = Some o -> is_Some (cast_bool o)).

(** What libqpdf answered to a processing call. *)
Definition engine_result (ev : event) : option (result QPDF) :=
  match ev with
  | EvProcessMemoryFile q data password => Some (processMemoryFile q "memory" data password)
  | EvProcessFile q filename password => Some (processFile q filename password)
  | _ => None
  end.

(** The computation ended in libqpdf throwing [e] from a processing call. *)
Definition raised_by_engine {A} (m : M A) (e : exn) : Prop :=
  exists ev, last (trace m) = Some ev /\ engine_result ev = Some (Throw e).

(** A computation [m] throws [QPDFExc] only when libqpdf did. *)
Definition engine_only {A} (m : M A) : Prop :=
  forall code what, outcome m = Throw (QPDFExc code what) ->
    raised_by_engine m (QPDFExc code what).

(** What libqpdf answers to a processing call of [m] is how [m] ends. *)
Definition engine_faithful {A} (m : M A) (result_of : event -> option (result A)) : Prop :=
  forall ev r, ev ∈ trace m -> result_of ev = Some r -> outcome m = r.

(** Every failure of the call reaches Python as one of the two registered
    exception classes. *)
Definition every_open_failure_is_translated
    (args : list PyObj) (kwargs : gmap string PyObj) : Prop :=
  forall e, outcome (open_pdf args kwargs) = Throw e ->
    exists what, exception_translator e = Some (PasswordError what)
              \/ exception_translator e = Some (PDFError what).

(** A text-mode stream as first argument always gives the stream type
    error. *)
Definition text_stream_is_type_error
    (args : list PyObj) (kwargs : gmap string PyObj) : Prop :=
  forall a0, args !! 0%nat = Some a0 ->
    hasattr a0 "read" = true -> hasattr a0 "seek" = true ->
    isinstance_TextIOBase a0 = true ->
    outcome (open_pdf args kwargs)
      = Throw (type_error "stream must be binary, readable and seekable").

End Binding.

(** *** A small runtime and engine, for running the definitions *)

Inductive sample_obj : Type :=
| SStr (s : string)                       (* str *)
| SBytes (b : string)                     (* bytes *)
| SBool (b : bool)
| SInt (z : Z)
| SFile (text : bool) (content : string). (* an open file, text or binary mode *)

Definition sample_hasattr (o : sample_obj) (name : string) : bool :=
  match o with
  | SFile _ _ => bool_decide (name = "read" ∨ name = "seek")
  | _ => false
  end.

Definition sample_read (o : sample_obj) : pyresult sample_obj :=
  match o with
  | SFile true content => Returns (SStr content)
  | SFile false content => Returns (SBytes content)
  | _ => Raises "AttributeError"
  end.

Definition sample_fspath (o : sample_obj) : pyresult sample_obj :=
  match o with
  | SStr s => Returns (SBytes s)
  | SBytes b => Returns (SBytes b)
  | _ => Raises "TypeError"
  end.

Definition sample_runtime : PyRuntime := {|
  PyObj := sample_obj;
  hasattr := sample_hasattr;
  isinstance_TextIOBase := fun o => match o with SFile true _ => true | _ => false end;
  call_read := sample_read;
  cast_string := fun o => match o with SStr s => Some s | SBytes b => Some b | _ => None end;
  cast_bool := fun o => match o with SBool b => Some b | _ => None end;
  cast_bytes := fun o => match o with SBytes b => Some b | _ => None end;
  not_bytes := fun _ => "Object is not an instance of 'bytes'";
  fspath := sample_fspath;
  repair_pdfa := fun _ => Returns tt
|}.

Record sample_qpdf : Type := mkSampleQpdf {
  suppress_warnings : bool;
  ignore_xref_streams : bool;
  attempt_recovery : bool;
  source : option string
}.

(** Two files and their bytes; "enc" stands for a document encrypted with
    the password "owner". *)
Definition sample_process (q : sample_qpdf) (data password : string) : result sample_qpdf :=
  if String.eqb data "enc" then
    if String.eqb password "owner"
    then Ok (mkSampleQpdf (suppress_warnings q) (ignore_xref_streams q) (attempt_recovery q) (Some data))
    else Throw (QPDFExc 4 "invalid password")
  else if String.eqb data "plain" then
    Ok (mkSampleQpdf (suppress_warnings q) (ignore_xref_streams q) (attempt_recovery q) (Some data))
  else Throw (QPDFExc 5 "damaged PDF").

Definition sample_file (filename : string) : option string :=
  if String.eqb filename "enc.pdf" then Some "enc"
  else if String.eqb filename "plain.pdf" then Some "plain"
  else None.

Definition sample_libqpdf : Libqpdf := {|
  QPDF := sample_qpdf;
  QPDF_new := mkSampleQpdf false false true None;
  setSuppressWarnings := fun b q =>
    mkSampleQpdf b (ignore_xref_streams q) (attempt_recovery q) (source q);
  setIgnoreXRefStreams := fun b q =>
    mkSampleQpdf (suppress_warnings q) b (attempt_recovery q) (source q);
  setAttemptRecovery := fun b q =>
    mkSampleQpdf (suppress_warnings q) (ignore_xref_streams q) b (source q);
  processMemoryFile := fun q _ data password => sample_process q data password;
  processFile := fun q filename password =>
    match sample_file filename with
    | Some data => sample_process q data password
    | None => Throw (QPDFExc 2 "open failed")
    end;
  qpdf_e_password := 4;
  default_stream_data_mode := qpdf_s_compress;
  QPDFWriter_open := fun _ _ => Ok tt;
  QPDFWriter_write := fun _ => Ok tt
|}.

Abbreviation sample_open := (open_pdf (py := sample_runtime) (lib := sample_libqpdf)).
Abbreviation sample_save := (save (py := sample_runtime) (lib := sample_libqpdf)).
Abbreviation sample_translator := (exception_translator (lib := sample_libqpdf)).
Abbreviation sample_fsencode :=
  (fsencode_filename (py := sample_runtime) (lib := sample_libqpdf)).
Abbreviation sample_call := (call (py := sample_runtime) (lib := sample_libqpdf)).
Abbreviation sample_EvRead := (EvRead (py := sample_runtime) (lib := sample_libqpdf)).
Abbreviation sample_EvFspath := (EvFspath (py := sample_runtime) (lib := sample_libqpdf)).
Abbreviation sample_EvProcessFile :=
  (EvProcessFile (py := sample_runtime) (lib := sample_libqpdf)).
Abbreviation sample_EvProcessMemoryFile :=
  (EvProcessMemoryFile (py := sample_runtime) (lib := sample_libqpdf)).

End Binding.

(** ** The document engine *)

Module Engine.

(** Modelled from the spec: libqpdf's object identifiers are not part of
    the sources.  Section 3: a pair of a positive number and a
    non-negative generation. *)
Record ObjectId : Type := mkObjectId {
  number : positive;
  generation : nat
}.

#[global] Instance ObjectId_eq_dec : EqDecision ObjectId.
Proof. solve_decision. Defined.

#[global] Instance ObjectId_countable : Countable ObjectId :=
  inj_countable'
    (fun i => (number i, generation i))
    (fun p => mkObjectId p.1 p.2)
    (fun i => match i with mkObjectId _ _ => eq_refl end).

(** Modelled from the spec: libqpdf's object values are not part of the
    sources.  Section 3: the tagged union of PDF values.  A real is kept as
    the decimal [mantissa / 10 ^ scale] it is written as; names are kept
    without their leading slash. *)
#[warnings="-register-all"] Inductive ObjectValue : Type :=
| Null
| Boolean (b : bool)
| Integer (z : Z)
| Real (mantissa : Z) (scale : nat)
| String (bytes : string)
| Name (name : string)
| Array (items : list ObjectValue)
| Dictionary (entries : gmap string ObjectValue)
| Stream (dict : gmap string ObjectValue) (raw : string) (decoded : option string)
| IndirectReference (id : ObjectId).

(** Modelled from the spec: the cross-reference entries of section 3.  An
    entry in use has no byte offset while its object waits to be written. *)
Inductive XRefEntry : Type :=
| Free
| InUse (offset : option N)
| Compressed (container : ObjectId) (index : nat).

(** Modelled from the spec: the document of section 3.  The merged table
    keeps, for every object number, the recorded generation and the
    effective entry; the cache keeps the materialized value of that
    generation.  [warnings] is the warnings channel of section 6. *)
Record Document : Type := mkDocument {
  xref : gmap positive (nat * XRefEntry);
  cache : gmap positive ObjectValue;
  trailer : gmap string ObjectValue;
  next_id : positive;
  warnings : list string
}.

(** Modelled from the spec: the error taxonomy of section 7. *)
Inductive error : Type :=
| IOError
| ParseError (offset : N)
| StructuralError
| PasswordError
| ReferenceError (n : positive).

Inductive result (A : Type) : Type :=
| Ok (a : A)
| Err (e : error).
Arguments Ok {A} a.
Arguments Err {A} e.

#[global] Instance result_ret : MRet result := @Ok.
#[global] Instance result_bind : MBind result := fun A B k r =>
  match r with
  | Ok a => k a
  | Err e => Err e
  end.
#[global] Instance result_fmap : FMap result := fun A B f r =>
  match r with
  | Ok a => Ok (f a)
  | Err e => Err e
  end.

(** Modelled from the spec: the object parser of section 4.2 run against
    the byte source, which libqpdf implements.  [parse_at off] gives the
    diagnostics of the parse and the object at byte offset [off], or no
    object when the bytes there are malformed; [object_stream_member s i]
    decodes the object stream [s] and extracts its sub-object [i]. *)
Class ObjectParser : Type := {
  parse_at : N -> list string * option ObjectValue;
  object_stream_member : ObjectValue -> nat -> option ObjectValue
}.

Section Engine.

Context {parser : ObjectParser}.

Definition set_cache (d : Document) (c : gmap positive ObjectValue) : Document :=
  mkDocument (xref d) c (trailer d) (next_id d) (warnings d).

Definition set_warnings (d : Document) (ws : list string) : Document :=
  mkDocument (xref d) (cache d) (trailer d) (next_id d) ws.

(** Modelled from the spec: QPDF's parsing is not part of the sources.
    Sections 6 and 7: diagnostics of a parse are collected on the warnings
    channel, never thrown; the parsed value is cached. *)
Definition parse_object (d : Document) (n : positive) (off : N)
    : result ObjectValue * Document :=
  let d1 := set_warnings d (warnings d ++ (parse_at off).1) in
  match (parse_at off).2 with
  | Some v => (Ok v, set_cache d1 (<[n := v]> (cache d1)))
  | None => (Err (ParseError off), d1)
  end.

(** Modelled from the spec: section 4.4, get_object for a Compressed entry:
    materialize the container, decode it as an object stream and extract
    the indexed sub-object.  A container that is not an object in use at
    the recorded generation leaves the reference dangling. *)
Definition get_compressed (d : Document) (n : positive) (c : ObjectId) (idx : nat)
    : result ObjectValue * Document :=
  match xref d !! number c with
  | Some (g, InUse (Some off)) =>
      if decide (g = generation c) then
        let rd := match cache d !! number c with
                  | Some s => (Ok s, d)
                  | None => parse_object d (number c) off
                  end in
        match rd.1 with
        | Ok s =>
            match object_stream_member s idx with
            | Some v => (Ok v, set_cache rd.2 (<[n := v]> (cache rd.2)))
            | None => (Err (ParseError off), rd.2)
            end
        | Err e => (Err e, rd.2)
        end
      else (Ok Null, d)
  | _ => (Ok Null, d)
  end.

(** Modelled from the spec: QPDF::getObjectByID, bound as [_get_object_id],
    is not part of the sources.  Section 4.4, get_object: the cached value,
    or the parser run at the entry's byte offset, the result cached.  An id
    with no table entry, with another generation than the recorded one, or
    whose entry is Free, resolves to Null; only malformed bytes throw. *)
Definition get_object (d : Document) (id : ObjectId) : result ObjectValue * Document :=
  match xref d !! number id with
  | None => (Ok Null, d)
  | Some (g, e) =>
      if decide (g = generation id) then
        match cache d !! number id with
        | Some v => (Ok v, d)
        | None =>
            match e with
            | Free => (Ok Null, d)
            | InUse None => (Ok Null, d)
            | InUse (Some off) => parse_object d (number id) off
            | Compressed c idx => get_compressed d (number id) c idx
            end
        end
      else (Ok Null, d)
  end.

(** The value an id resolves to, the effect on the cache left aside. *)
Definition resolve (d : Document) (id : ObjectId) : result ObjectValue :=
  (get_object d id).1.

(** Modelled from the spec: QPDF::replaceObject is not part of the sources.
    Section 4.4, replace_object: the id must exist with a generation at
    most the supplied one; the cache is overwritten and the entry waits to
    be rewritten. *)
Definition replace_object (d : Document) (id : ObjectId) (v : ObjectValue)
    : result Document :=
  match xref d !! number id with
  | Some (g, _) =>
      if decide (g ≤ generation id) then
        Ok (mkDocument (<[number id := (generation id, InUse None)]> (xref d))
                       (<[number id := v]> (cache d))
                       (trailer d) (next_id d) (warnings d))
      else Err (ReferenceError (number id))
  | None => Err (ReferenceError (number id))
  end.

(** Modelled from the spec: the removal of an object is libqpdf's.
    Section 4.4, remove_object: mark Free, increment the generation, evict
    the cache; section 7: an unknown id is a ReferenceError. *)
Definition remove_object (d : Document) (n : positive) : result Document :=
  match xref d !! n with
  | Some (g, _) =>
      Ok (mkDocument (<[n := (S g, Free)]> (xref d)) (delete n (cache d))
                     (trailer d) (next_id d) (warnings d))
  | None => Err (ReferenceError n)
  end.

(** Modelled from the spec: QPDF::getWarnings, bound as [get_warnings], is
    not part of the sources.  Section 6: the drain returns the accumulated
    diagnostics and clears them. *)
Definition get_warnings (d : Document) : list string * Document :=
  (warnings d, set_warnings d []).

(** *** The page tree *)

Definition ref_of (v : ObjectValue) : option ObjectId :=
  match v with
  | IndirectReference id => Some id
  | _ => None
  end.

(** Modelled from the spec: the page tree is libqpdf's.  Section 3: links
    between objects are indirect references.  The nodes a /Kids array
    refers to; entries that are not indirect references name no node. *)
Definition kids_of (m : gmap string ObjectValue) : list ObjectId :=
  match m !! "Kids" with
  | Some (Array items) => omap ref_of items
  | _ => []
  end.

Inductive node_kind : Type :=
| PagesNode (kids : list ObjectId)
| PageLeaf
| NotANode.

(** Modelled from the spec: section 4.4: intermediate nodes are the
    dictionaries of /Type /Pages, pages those of /Type /Page; anything
    else, Null included, is no node of the tree. *)
Definition classify (v : ObjectValue) : node_kind :=
  match v with
  | Dictionary m =>
      match m !! "Type" with
      | Some (Name "Pages") => PagesNode (kids_of m)
      | Some (Name "Page") => PageLeaf
      | _ => NotANode
      end
  | _ => NotANode
  end.

(** Modelled from the spec: section 3, the trailer's /Root must resolve to
    a dictionary of /Type /Catalog, else the structure is in error; the
    page tree hangs from its /Pages. *)
Definition pages_root (d : Document) : result (option ObjectId) :=
  match trailer d !! "Root" with
  | Some (IndirectReference r) =>
      v ← resolve d r;
      match v with
      | Dictionary cat =>
          match cat !! "Type" with
          | Some (Name "Catalog") => Ok (cat !! "Pages" ≫= ref_of)
          | _ => Err StructuralError
          end
      | _ => Err StructuralError
      end
  | _ => Err StructuralError
  end.

(** Modelled from the spec: section 8, "Count decrements". *)
Definition decrement_count (m : gmap string ObjectValue) : gmap string ObjectValue :=
  match m !! "Count" with
  | Some (Integer c) => <["Count" := Integer (c - 1)]> m
  | _ => m
  end.

(** Modelled from the spec: section 4.4, the /Count chain of the ancestors,
    followed through /Parent.  The walk up is cut after as many steps as
    the table has entries, so that a malformed chain that loops ends. *)
Fixpoint decrement_ancestors (steps : nat) (d : Document) (parent : option ObjectValue)
    : result Document :=
  match steps with
  | O => Ok d
  | S steps' =>
      match parent with
      | Some (IndirectReference a) =>
          v ← (get_object d a).1;
          match v with
          | Dictionary m =>
              d' ← replace_object (get_object d a).2 a (Dictionary (decrement_count m));
              decrement_ancestors steps' d' (m !! "Parent")
          | _ => Ok (get_object d a).2
          end
      | _ => Ok d
      end
  end.

(** Modelled from the spec: section 4.4 and the page-mutation property of
    section 8: the page leaves its parent's /Kids and the counts of the
    parent and of its ancestors go down by one. *)
Definition detach (d : Document) (parent page : ObjectId) : result Document :=
  v ← (get_object d parent).1;
  let d1 := (get_object d parent).2 in
  match v with
  | Dictionary m =>
      match m !! "Kids" with
      | Some (Array items) =>
          if bool_decide (page ∈ omap ref_of items) then
            let kids := filter (fun k => ref_of k ≠ Some page) items in
            d2 ← replace_object d1 parent
                   (Dictionary (decrement_count (<["Kids" := Array kids]> m)));
            decrement_ancestors (size (xref d2)) d2 (m !! "Parent")
          else Ok d1
      | _ => Ok d1
      end
  | _ => Ok d1
  end.

(** Modelled from the spec: QPDF::removePage, bound as [remove_page], is
    not part of the sources.  Section 4.4: the page is found through its
    id, unlinked from the parent its /Parent names, and its object is
    removed with remove_object. *)
Definition remove_page (d : Document) (page : ObjectId) : result Document :=
  v ← (get_object d page).1;
  match v with
  | Dictionary m =>
      d1 ← match m !! "Parent" with
           | Some (IndirectReference parent) => detach (get_object d page).2 parent page
           | _ => Ok (get_object d page).2
           end;
      remove_object d1 (number page)
  | _ => Err (ReferenceError (number page))
  end.

(** The ids the table knows, each at its recorded generation. *)
Definition universe (d : Document) : gset ObjectId :=
  list_to_set ((fun e => mkObjectId e.1 e.2.1) <$> map_to_list (xref d)).

Definition inspect {A} (a : A) : {b | a = b} := exist _ a eq_refl.

(** The nodes to do after a node of kind [k]. *)
Definition expand (k : node_kind) : list ObjectId :=
  match k with
  | PagesNode kids => kids
  | _ => []
  end.

(** Modelled from the spec: QPDF::getAllPages, bound as [pages], is not
    part of the sources.  Section 4.4, all_pages: a depth-first walk of
    /Kids in document order that never visits a node twice.
    [walk d visited todo] takes the next id to do: an id already visited
    is dropped; otherwise it is marked and resolved, and a /Type /Pages
    node puts its kids in front of the rest.  It gives the ids visited, in
    order, each with what it was found to be. *)
Equations? walk (d : Document) (visited : gset ObjectId) (todo : list ObjectId)
    : result (list (ObjectId * node_kind))
    by wf (size (universe d ∖ visited), length todo) (Subterm.lexprod nat nat lt lt) :=
walk d visited [] := Ok [];
walk d visited (id :: rest) with decide (id ∈ visited) => {
  | left _ := walk d visited rest;
  | right _ with inspect (resolve d id) => {
    | exist _ (Err e) _ := Err e;
    | exist _ (Ok v) _ :=
        cons (id, classify v) <$> walk d ({[id]} ∪ visited) (expand (classify v) ++ rest) } }.
Proof.
  destruct (decide (id ∈ universe d)) as [Hin|Hout].
  - apply left_lex, subset_size. set_solver.
  - assert (universe d ∖ ({[id]} ∪ visited) = universe d ∖ visited) as ->
      by set_solver.
    assert (v = Null) as ->; [|apply right_lex; simpl; lia].
    unfold resolve, get_object in e.
    destruct (xref d !! number id) as [[g x]|] eqn:Hx; [|by injection e].
    destruct (decide (g = generation id)) as [->|]; [|by injection e].
    destruct Hout. unfold universe.
    rewrite elem_of_list_to_set, list_elem_of_fmap.
    exists (number id, (generation id, x)). split; [by destruct id|].
    by apply elem_of_map_to_list.
Defined.

(** Modelled from the spec: section 4.4, the walk starts at /Root/Pages.
    The visits of the walk from there. *)
Definition visits (d : Document) : result (list (ObjectId * node_kind)) :=
  r ← pages_root d;
  match r with
  | Some p => walk d ∅ [p]
  | None => Ok []
  end.

Definition page_of (visit : ObjectId * node_kind) : option ObjectId :=
  match visit.2 with
  | PageLeaf => Some visit.1
  | _ => None
  end.

(** Modelled from the spec: QPDF::getAllPages, bound as [pages]; section
    4.4, all_pages: the pages among the nodes visited, the /Type /Pages
    nodes flattened away. *)
Definition all_pages (d : Document) : result (list ObjectId) :=
  (fun vs : list (ObjectId * node_kind) => omap page_of vs) <$> visits d.

(** *** What the page tree of a document is *)

Definition kids (d : Document) (n : ObjectId) : list ObjectId :=
  match resolve d n with
  | Ok v => expand (classify v)
  | Err _ => []
  end.

Definition is_page (d : Document) (n : ObjectId) : Prop :=
  exists v, resolve d n = Ok v /\ classify v = PageLeaf.

(** The ids that /Kids entries lead to from the ids of [start]. *)
Inductive reach_from (d : Document) (start : list ObjectId) : ObjectId -> Prop :=
| reach_start n : n ∈ start -> reach_from d start n
| reach_kid n k : reach_from d start n -> k ∈ kids d n -> reach_from d start k.

Definition reach (d : Document) (n : ObjectId) : Prop :=
  exists r, pages_root d = Ok (Some r) /\ reach_from d [r] n.

Definition page_reachable (d : Document) (p : ObjectId) : Prop :=
  reach d p /\ is_page d p.

(** What a walk that comes back has visited. *)
Record walk_ok (d : Document) (visited : gset ObjectId) (todo : list ObjectId)
    (vs : list (ObjectId * node_kind)) : Prop := {
  walk_once : NoDup vs.*1;
  walk_fresh : forall n, n ∈ vs.*1 -> n ∉ visited;
  walk_done : forall n, n ∈ todo -> n ∈ visited \/ n ∈ vs.*1;
  walk_kind : forall n k, (n, k) ∈ vs -> exists v, resolve d n = Ok v /\ classify v = k;
  walk_closed : forall n c, n ∈ vs.*1 -> c ∈ kids d n -> c ∈ visited \/ c ∈ vs.*1;
  walk_reach : forall n, n ∈ vs.*1 -> reach_from d todo n
}.

(** The document after a series of lookups. *)
Definition after_lookups (d : Document) (ids : list ObjectId) : Document :=
  foldl (fun d id => (get_object d id).2) d ids.

(** Object number [n] is a removed slot: its entry is Free and nothing is
    cached for it. *)
Definition removed (d : Document) (n : positive) : Prop :=
  exists g, xref d !! n = Some (g, Free) /\ cache d !! n = None.

End Engine.

(** *** A small document, for running the definitions *)

Definition ref (n : positive) : ObjectValue := IndirectReference (mkObjectId n 0).

Definition pages_node (parent : option positive) (kids : list positive) (count : Z)
    : ObjectValue :=
  Dictionary
    (<["Type" := Name "Pages"]>
     (<["Kids" := Array (ref <$> kids)]>
     (<["Count" := Integer count]>
     (match parent with
      | Some p => {["Parent" := ref p]}
      | None => ∅
      end)))).

Definition page (parent : positive) : ObjectValue :=
  Dictionary (<["Type" := Name "Page"]> {["Parent" := ref parent]}).

(** The byte source holds object 5, a page, at offset 700; nothing else
    parses. *)
Definition sample_parser : ObjectParser := {|
  parse_at := fun off =>
    if (off =? 700)%N then (["object 5: recovered"], Some (page 4)) else ([], None);
  object_stream_member := fun _ _ => None
|}.

(** Catalog 1; page tree 2 with kids 3, 4 and 2 itself; page 3; page tree
    4 with kids 5 and its ancestor 2; page 5, still to be parsed. *)
Definition sample_document : Document := {|
  xref := list_to_map
    [(1%positive, (0, InUse (Some 15%N))); (2%positive, (0, InUse (Some 80%N)));
     (3%positive, (0, InUse (Some 200%N))); (4%positive, (0, InUse (Some 400%N)));
     (5%positive, (0, InUse (Some 700%N)))];
  cache := list_to_map
    [(1%positive, Dictionary (<["Type" := Name "Catalog"]> {["Pages" := ref 2]}));
     (2%positive, pages_node None [3; 4; 2]%positive 2);
     (3%positive, page 2);
     (4%positive, pages_node (Some 2%positive) [5; 2]%positive 1)];
  trailer := {["Root" := ref 1]};
  next_id := 6;
  warnings := []
|}.

Abbreviation sample_get_object := (get_object (parser := sample_parser)).
Abbreviation sample_after_lookups := (after_lookups (parser := sample_parser)).

(** The sample document once page 5 is removed. *)
Definition sample_without_page_5 : Document :=
  match remove_page (parser := sample_parser) sample_document (mkObjectId 5 0) with
  | Ok d => d
  | Err _ => sample_document
  end.

End Engine.

(** ** The binding, the rest of the module *)

Module Surface.
Import Binding.

(** [QPDF::getFilename], which [__repr__] and [filename] call. *)
Class LibqpdfNames {lib : Libqpdf} : Type := {
  getFilename : QPDF -> string
}.

Section Surface.

Context {py : PyRuntime} {lib : Libqpdf} {names : LibqpdfNames}.

(** Lines 162-166, [__repr__]. *)
Definition repr (q : QPDF) : string :=
  "<pikepdf.PDF description='" +:+ getFilename q +:+ "'>".

(** The text between the fixed head and tail of a [repr]. *)
Definition description_of (r : string) : string :=
  String.substring 26 (String.length r - 28) r.

(** *** [open_pdf] in its two phases

    Lines 70-81 turn the keyword arguments into a password and a
    configured QPDF; lines 83-107 hand the first argument to libqpdf. *)

(** The keyword [key] is there and does not convert to a bool. *)
Definition bad_flag (kwargs : gmap string PyObj) (key : string) : bool :=
  match kwargs !! key with
  | Some o => match cast_bool o with Some _ => false | None => true end
  | None => false
  end.

(** What [kwargs_to_method] makes of [q] when the keyword is absent or
    converts. *)
Definition flag (kwargs : gmap string PyObj) (key : string)
    (callback : bool -> QPDF -> QPDF) (q : QPDF) : QPDF :=
  match kwargs !! key with
  | Some o => match cast_bool o with Some v => callback v q | None => q end
  | None => q
  end.

Definition flag_keys : list string :=
  ["ignore_xref_streams"; "suppress_warnings"; "attempt_recovery"].

Definition first_bad_flag (kwargs : gmap string PyObj) : option string :=
  List.find (bad_flag kwargs) flag_keys.

(** The QPDF that lines 72-80 build: warnings suppressed, then the three
    keywords in the order of the source. *)
Definition configured (kwargs : gmap string PyObj) : QPDF :=
  flag kwargs "attempt_recovery" setAttemptRecovery
    (flag kwargs "suppress_warnings" setSuppressWarnings
       (flag kwargs "ignore_xref_streams" setIgnoreXRefStreams
          (setSuppressWarnings true QPDF_new))).

Definition password_of (kwargs : gmap string PyObj) : string :=
  match kwargs !! "password" with
  | Some o => default "" (cast_string o)
  | None => ""
  end.

Definition bad_password (kwargs : gmap string PyObj) : bool :=
  match kwargs !! "password" with
  | Some o => match cast_string o with Some _ => false | None => true end
  | None => false
  end.

(** Lines 70-81 as one step. *)
Definition prepare (kwargs : gmap string PyObj) : result (string * QPDF) :=
  if bad_password kwargs then Throw cast_error
  else match first_bad_flag kwargs with
       | Some key => Throw (type_error (key +:+ ": unsupported argument type"))
       | None => Ok (password_of kwargs, configured kwargs)
       end.

(** Lines 83-107 as one step. *)
Definition dispatch (a0 : PyObj) (q : QPDF) (password : string) : M QPDF :=
  if hasattr a0 "read" && hasattr a0 "seek" then
    if isinstance_TextIOBase a0 then
      throw (type_error "stream must be binary, readable and seekable")
    else
      bind (call (EvRead a0) (from_python (call_read a0))) (fun pydata =>
      bind (to_bytes pydata) (fun data =>
      call (EvProcessMemoryFile q data password)
           (processMemoryFile q "memory" data password)))
  else
    bind (fsencode_filename a0) (fun filename =>
    call (EvProcessFile q filename password) (processFile q filename password)).

(** The calls that the second phase makes. *)
Inductive dispatch_calls (a0 : PyObj) (q : QPDF) (password : string)
    : list event -> Prop :=
| calls_none : dispatch_calls a0 q password []
| calls_read : dispatch_calls a0 q password [EvRead a0]
| calls_memory r data :
    call_read a0 = Returns r -> cast_bytes r = Some data ->
    dispatch_calls a0 q password [EvRead a0; EvProcessMemoryFile q data password]
| calls_fspath : dispatch_calls a0 q password [EvFspath a0]
| calls_file r filename :
    fspath a0 = Returns r -> cast_string r = Some filename ->
    dispatch_calls a0 q password [EvFspath a0; EvProcessFile q filename password].

(** The keywords [open_pdf] looks at are the same in both. *)
Definition same_options (kwargs kwargs' : gmap string PyObj) : Prop :=
  forall key, key ∈ "password" :: flag_keys -> kwargs !! key = kwargs' !! key.

(** The writer that lines 196-202 of [save] set up. *)
Definition save_writer (q : QPDF) (fn : string) (static_id : bool) : QPDFWriter QPDF :=
  if static_id
  then setStreamDataMode qpdf_s_uncompress
         (setStaticID true (mkWriter q fn false default_stream_data_mode))
  else mkWriter q fn false default_stream_data_mode.

(** The steps of [save] up to the write went through, to the file [fn]. *)
Definition written (q : QPDF) (filename : PyObj) (static_id : bool) (fn : string) : Prop :=
  (exists r, fspath filename = Returns r /\ cast_string r = Some fn) /\
  QPDFWriter_open q fn = Ok tt /\
  QPDFWriter_write (save_writer q fn static_id) = Ok tt.

End Surface.

(** The sample engine with a writer whose write fails. *)
Definition sample_libqpdf_full_disk : Libqpdf := {|
  QPDF := sample_qpdf;
  QPDF_new := QPDF_new (Libqpdf := sample_libqpdf);
  setSuppressWarnings := setSuppressWarnings (Libqpdf := sample_libqpdf);
  setIgnoreXRefStreams := setIgnoreXRefStreams (Libqpdf := sample_libqpdf);
  setAttemptRecovery := setAttemptRecovery (Libqpdf := sample_libqpdf);
  processMemoryFile := processMemoryFile (Libqpdf := sample_libqpdf);
  processFile := processFile (Libqpdf := sample_libqpdf);
  qpdf_e_password := 4;
  default_stream_data_mode := qpdf_s_compress;
  QPDFWriter_open := fun _ _ => Ok tt;
  QPDFWriter_write := fun _ => Throw (QPDFExc 2 "write failed")
|}.

Abbreviation sample_configured :=
  (configured (py := sample_runtime) (lib := sample_libqpdf)).
Abbreviation sample_password_of := (password_of (py := sample_runtime)).

Definition sample_names : LibqpdfNames (lib := sample_libqpdf) :=
  @Build_LibqpdfNames sample_libqpdf
    (fun q : sample_qpdf => default "empty PDF" (source q)).

End Surface.

(** ** Properties of the binding *)

Module BindingSpec.
Import Binding.

Section BindingSpec.

Context {py : PyRuntime} {lib : Libqpdf}.

Lemma bind_ret {A B} (a : A) (k : A -> M B) : bind (ret a) k = k a.
Proof. unfold bind, ret. simpl. by destruct (k a). Qed.

Lemma bind_throw {A B} (e : exn) (k : A -> M B) : bind (throw e) k = throw e.
Proof. reflexivity. Qed.

Lemma trace_bind {A B} (m : M A) (k : A -> M B) :
  trace (bind m k)
  = trace m ++ match outcome m with Ok a => trace (k a) | Throw _ => [] end.
Proof.
  unfold trace, outcome, bind. destruct (m.2); simpl; [done|].
  by rewrite app_nil_r.
Qed.

Lemma outcome_bind {A B} (m : M A) (k : A -> M B) :
  outcome (bind m k)
  = match outcome m with Ok a => outcome (k a) | Throw e => Throw e end.
Proof. unfold outcome, bind. by destruct (m.2). Qed.

Lemma trace_catch_cast_error {A} (m : M A) e :
  trace (catch_cast_error m e) = trace m.
Proof. unfold catch_cast_error, trace. by destruct (m.2) as [|[]]. Qed.

Lemma cast_trace {T} (c : PyObj -> option T) o : trace (cast c o) = [].
Proof. unfold cast. by destruct (c o). Qed.

Lemma kwargs_to_method_trace kwargs key q callback :
  trace (kwargs_to_method kwargs key q callback) = [].
Proof.
  unfold kwargs_to_method. rewrite trace_catch_cast_error.
  destruct (kwargs !! key); [|done].
  change (trace (bind (cast cast_bool p) (fun v => ret (callback v q))) = []).
  rewrite trace_bind, cast_trace. by destruct (outcome _).
Qed.

Lemma kwargs_to_method_convert kwargs key q callback :
  (forall o, kwargs !! key = Some o -> is_Some (cast_bool o)) ->
  exists q', kwargs_to_method kwargs key q callback = ret q'.
Proof.
  intros Hconv. unfold kwargs_to_method.
  destruct (kwargs !! key) as [o|]; [|by exists q].
  destruct (Hconv o eq_refl) as [v Hv].
  exists (callback v q). unfold cast. by rewrite Hv.
Qed.

(** Only libqpdf throws [QPDFExc]: the conversions do not. *)
Lemma kwargs_to_method_not_QPDFExc kwargs key q callback code what :
  outcome (kwargs_to_method kwargs key q callback) ≠ Throw (QPDFExc code what).
Proof.
  unfold kwargs_to_method, catch_cast_error, outcome, mbind, M_bind, bind, cast.
  destruct (kwargs !! key) as [o|]; [|done].
  by destruct (cast_bool o).
Qed.

Lemma fsencode_filename_trace o : trace (fsencode_filename o) = [EvFspath o].
Proof.
  unfold fsencode_filename. rewrite trace_catch_cast_error.
  change (trace (bind (call (EvFspath o) (from_python (fspath o)))
                      (cast cast_string)) = [EvFspath o]).
  rewrite trace_bind. unfold call, outcome. simpl.
  destruct (from_python (fspath o)); [by rewrite cast_trace|done].
Qed.

Lemma fsencode_filename_not_QPDFExc o code what :
  outcome (fsencode_filename o) ≠ Throw (QPDFExc code what).
Proof.
  unfold fsencode_filename, catch_cast_error, outcome, mbind, M_bind, bind, call, cast.
  simpl. destruct (fspath o) as [r|]; simpl; [|done].
  by destruct (cast_string r).
Qed.

Lemma engine_only_bind_pure {A B} (m : M A) (k : A -> M B) :
  trace m = [] ->
  (forall code what, outcome m ≠ Throw (QPDFExc code what)) ->
  (forall a, engine_only (k a)) ->
  engine_only (bind m k).
Proof.
  intros Htr Hnot Hk code what. unfold raised_by_engine.
  rewrite outcome_bind, trace_bind, Htr. simpl.
  destruct (outcome m) as [a|e] eqn:Hm.
  - apply Hk.
  - intros [= ->]. by destruct (Hnot code what).
Qed.

Lemma engine_only_throw {A} (e : exn) :
  (forall code what, e ≠ QPDFExc code what) -> engine_only (@throw _ _ A e).
Proof. intros Hnot code what [= ->]. by destruct (Hnot code what). Qed.

Lemma open_pdf_engine_only args kwargs : engine_only (open_pdf args kwargs).
Proof.
  unfold open_pdf, mbind, M_bind.
  destruct (length args <? 1)%nat; [by apply engine_only_throw|].
  destruct (2 <? length args)%nat; [by apply engine_only_throw|].
  apply engine_only_bind_pure.
  { destruct (kwargs !! "password"); [apply cast_trace|done]. }
  { intros code what. unfold cast.
    destruct (kwargs !! "password") as [o|]; [|done]. by destruct (cast_string o). }
  intros password.
  do 3 (apply engine_only_bind_pure;
        [apply kwargs_to_method_trace
        |intros code what; apply kwargs_to_method_not_QPDFExc
        |intros ?q]).
  destruct (args !! 0%nat) as [a0|]; [|by apply engine_only_throw].
  destruct (hasattr a0 "read" && hasattr a0 "seek").
  - destruct (isinstance_TextIOBase a0); [by apply engine_only_throw|].
    intros code what.
    unfold raised_by_engine, outcome, trace, bind, call, to_bytes. simpl.
    destruct (call_read a0) as [pydata|]; simpl; [|done].
    destruct (cast_bytes pydata) as [data|]; simpl; [|done].
    intros Hthrow. eexists. split; [done|]. simpl. by rewrite Hthrow.
  - intros code what. unfold raised_by_engine.
    rewrite outcome_bind, trace_bind, fsencode_filename_trace.
    destruct (outcome (fsencode_filename a0)) as [filename|e] eqn:Hfn.
    + simpl. intros Hthrow. eexists. split; [done|].
      simpl. unfold outcome, call in Hthrow. simpl in Hthrow. by rewrite Hthrow.
    + intros [= ->]. by destruct (fsencode_filename_not_QPDFExc a0 code what).
Qed.

Lemma engine_faithful_bind_pure {A B} (m : M A) (k : A -> M B) result_of :
  trace m = [] ->
  (forall a, engine_faithful (k a) result_of) ->
  engine_faithful (bind m k) result_of.
Proof.
  intros Htr Hk ev r. rewrite outcome_bind, trace_bind, Htr. simpl.
  destruct (outcome m) as [a|e]; [apply Hk|]. by intros ?%elem_of_nil.
Qed.

Lemma engine_faithful_throw {A} (e : exn) result_of :
  engine_faithful (@throw _ _ A e) result_of.
Proof. by intros ev r ?%elem_of_nil. Qed.

Lemma open_pdf_engine_faithful args kwargs :
  engine_faithful (open_pdf args kwargs) engine_result.
Proof.
  unfold open_pdf, mbind, M_bind.
  destruct (length args <? 1)%nat; [apply engine_faithful_throw|].
  destruct (2 <? length args)%nat; [apply engine_faithful_throw|].
  apply engine_faithful_bind_pure.
  { destruct (kwargs !! "password"); [apply cast_trace|done]. }
  intros password.
  do 3 (apply engine_faithful_bind_pure; [apply kwargs_to_method_trace|intros ?q]).
  destruct (args !! 0%nat) as [a0|]; [|apply engine_faithful_throw].
  destruct (hasattr a0 "read" && hasattr a0 "seek").
  - destruct (isinstance_TextIOBase a0); [apply engine_faithful_throw|].
    intros ev r. unfold outcome, trace, bind, call, to_bytes. simpl.
    destruct (call_read a0) as [pydata|]; simpl.
    2:{ intros ->%list_elem_of_singleton. done. }
    destruct (cast_bytes pydata) as [data|]; simpl.
    2:{ intros ->%list_elem_of_singleton. done. }
    rewrite !elem_of_cons, elem_of_nil. intros [->|[->|[]]]; [done|].
    simpl. by intros [= ->].
  - intros ev r. rewrite outcome_bind, trace_bind, fsencode_filename_trace.
    destruct (outcome (fsencode_filename a0)) as [filename|e]; simpl.
    2:{ intros ->%list_elem_of_singleton. done. }
    rewrite !elem_of_cons, elem_of_nil. intros [->|[->|[]]]; [done|].
    simpl. by intros [= ->].
Qed.

(** C1, as the code has it.  However libqpdf's processing call ends, open
    ends the same way; so when libqpdf throws a [QPDFExc], as it does with
    the code [qpdf_e_password] when the key validation fails, open fails
    with that exception, and the module's translator makes it a
    PasswordError if the code is [qpdf_e_password] and a PDFError if it is
    any other.  The other way round, whatever exception [e] an open call
    fails with, the translator reports it as PasswordError exactly when
    [e] is a [QPDFExc] whose error code is [qpdf_e_password], and as
    PDFError exactly when it is a [QPDFExc] with any other code; such an
    exception was thrown by libqpdf's processing call.  An exception that
    is not a [QPDFExc] (the argument errors of the binding, a Python
    exception of [read] or [fspath]) is not handled by the translator: it
    is left to pybind11, with whatever Python class it has. *)
Theorem open_failure_translation args kwargs :
  (forall ev r,
     ev ∈ trace (open_pdf args kwargs) -> engine_result ev = Some r ->
     outcome (open_pdf args kwargs) = r) /\
  (forall ev code what,
     ev ∈ trace (open_pdf args kwargs) ->
     engine_result ev = Some (Throw (QPDFExc code what)) ->
     outcome (open_pdf args kwargs) = Throw (QPDFExc code what) /\
     exception_translator (QPDFExc code what)
     = Some (if (code =? qpdf_e_password)%Z then PasswordError what
             else PDFError what)) /\
  (forall e,
     outcome (open_pdf args kwargs) = Throw e ->
     (forall what, exception_translator e = Some (PasswordError what)
                   <-> e = QPDFExc qpdf_e_password what) /\
     (forall what, exception_translator e = Some (PDFError what)
                   <-> exists code, code ≠ qpdf_e_password /\ e = QPDFExc code what) /\
     (exception_translator e = None <-> forall code what, e ≠ QPDFExc code what) /\
     (forall code what, e = QPDFExc code what ->
        raised_by_engine (open_pdf args kwargs) e)).
Proof.
  split; [apply open_pdf_engine_faithful|]. split.
  { intros ev code what Hev Hres. split.
    - by apply (open_pdf_engine_faithful args kwargs ev).
    - simpl. by destruct (code =? qpdf_e_password)%Z. }
  intros e Hfail. repeat split.
  - destruct e; simpl; try done.
    destruct (Z.eqb_spec code qpdf_e_password); congruence.
  - intros ->. simpl. by rewrite Z.eqb_refl.
  - destruct e; simpl; try done.
    destruct (Z.eqb_spec code qpdf_e_password); [done|].
    intros [= ->]. by exists code.
  - intros (code & Hcode & ->). simpl.
    by destruct (Z.eqb_spec code qpdf_e_password).
  - destruct e; simpl; try done.
    by destruct (code =? qpdf_e_password)%Z.
  - intros Hnot. destruct e; simpl; try done.
    by destruct (Hnot code what).
  - intros code what ->. by apply open_pdf_engine_only.
Qed.

(** C9.  With no positional argument open fails with the value error
    "not enough arguments", and with more than two with the value error
    "too many arguments"; in both cases the trace of calls is empty: no
    stream is read, no path is converted and libqpdf processes nothing. *)
Theorem open_pdf_argument_count args kwargs :
  (length args = 0 ->
     open_pdf args kwargs = ([], Throw (value_error "not enough arguments"))) /\
  (2 < length args ->
     open_pdf args kwargs = ([], Throw (value_error "too many arguments"))).
Proof.
  unfold open_pdf. split; intros Hlen.
  - by rewrite Hlen.
  - destruct (Nat.ltb_spec (length args) 1); [lia|].
    by destruct (Nat.ltb_spec 2 (length args)); [|lia].
Qed.

Lemma bind_pure_trace {A B} (m : M A) (k : A -> M B) :
  trace m = [] ->
  (forall a, trace (k a) = [] /\ exists e, outcome (k a) = Throw e) ->
  trace (bind m k) = [] /\ exists e, outcome (bind m k) = Throw e.
Proof.
  intros Htr Hk. rewrite trace_bind, outcome_bind, Htr.
  destruct (outcome m) as [a|e]; [apply Hk|]. split; [done|by exists e].
Qed.

(** A text-mode stream is never read, whatever else the call is given. *)
Lemma open_pdf_text_stream_unread args kwargs a0 :
  args !! 0%nat = Some a0 ->
  hasattr a0 "read" = true -> hasattr a0 "seek" = true ->
  isinstance_TextIOBase a0 = true ->
  trace (open_pdf args kwargs) = [] /\
  exists e, outcome (open_pdf args kwargs) = Throw e.
Proof.
  intros Ha0 Hread Hseek Htext. unfold open_pdf, mbind, M_bind.
  destruct (length args <? 1)%nat; [by eauto|].
  destruct (2 <? length args)%nat; [by eauto|].
  apply bind_pure_trace.
  { destruct (kwargs !! "password"); [apply cast_trace|done]. }
  intros password.
  do 3 (apply bind_pure_trace; [apply kwargs_to_method_trace|intros ?q]).
  rewrite Ha0, Hread, Hseek, Htext. simpl. by eauto.
Qed.

Lemma open_pdf_dispatch args kwargs a0 :
  args !! 0%nat = Some a0 -> length args <= 2 -> kwargs_convert kwargs ->
  exists q password,
    open_pdf args kwargs =
      if hasattr a0 "read" && hasattr a0 "seek" then
        if isinstance_TextIOBase a0 then
          throw (type_error "stream must be binary, readable and seekable")
        else
          bind (call (EvRead a0) (from_python (call_read a0))) (fun pydata =>
          bind (to_bytes pydata) (fun data =>
          call (EvProcessMemoryFile q data password)
               (processMemoryFile q "memory" data password)))
      else
        bind (fsencode_filename a0) (fun filename =>
        call (EvProcessFile q filename password) (processFile q filename password)).
Proof.
  intros Ha0 Hlen [Hpw Hflags]. unfold open_pdf, mbind, M_bind.
  destruct (Nat.ltb_spec (length args) 1) as [Hlt|_].
  { apply lookup_lt_Some in Ha0. lia. }
  destruct (Nat.ltb_spec 2 (length args)) as [Hlt|_]; [lia|].
  assert (exists password,
    match kwargs !! "password" with
    | Some o => cast cast_string o
    | None => ret ""
    end = ret password) as [password ->].
  { destruct (kwargs !! "password") as [o|]; [|by eexists].
    destruct (Hpw o eq_refl) as [v Hv]. exists v. unfold cast. by rewrite Hv. }
  rewrite bind_ret.
  destruct (kwargs_to_method_convert kwargs "ignore_xref_streams"
              (setSuppressWarnings true QPDF_new) setIgnoreXRefStreams) as [q1 ->].
  { intros o. apply Hflags. set_solver. }
  rewrite bind_ret.
  destruct (kwargs_to_method_convert kwargs "suppress_warnings"
              q1 setSuppressWarnings) as [q2 ->].
  { intros o. apply Hflags. set_solver. }
  rewrite bind_ret.
  destruct (kwargs_to_method_convert kwargs "attempt_recovery"
              q2 setAttemptRecovery) as [q3 ->].
  { intros o. apply Hflags. set_solver. }
  rewrite bind_ret, Ha0. by exists q3, password.
Qed.

(** C10, as the code has it.  Take an open call with one or two positional
    arguments whose keyword arguments convert.  If the first argument has
    the attributes [read] and [seek] and is an instance of io.TextIOBase,
    open throws the type error "stream must be binary, readable and
    seekable" with an empty trace: the stream is not read.  If it lacks
    [read] or [seek], it is treated as a filesystem path: it goes through
    [fsencode_filename] and the result to [processFile].  Without the two
    conditions on the call, a text-mode stream is still never read and the
    call still fails. *)
Theorem open_pdf_stream_or_path args kwargs a0 :
  args !! 0%nat = Some a0 ->
  (length args <= 2 -> kwargs_convert kwargs ->
   hasattr a0 "read" = true -> hasattr a0 "seek" = true ->
   isinstance_TextIOBase a0 = true ->
     open_pdf args kwargs
     = ([], Throw (type_error "stream must be binary, readable and seekable"))) /\
  (length args <= 2 -> kwargs_convert kwargs ->
   hasattr a0 "read" = false \/ hasattr a0 "seek" = false ->
     exists q password,
       open_pdf args kwargs =
         bind (fsencode_filename a0) (fun filename =>
         call (EvProcessFile q filename password) (processFile q filename password))) /\
  (hasattr a0 "read" = true -> hasattr a0 "seek" = true ->
   isinstance_TextIOBase a0 = true ->
     trace (open_pdf args kwargs) = [] /\
     exists e, outcome (open_pdf args kwargs) = Throw e).
Proof.
  intros Ha0. split; [|split].
  - intros Hlen Hkw Hread Hseek Htext.
    destruct (open_pdf_dispatch args kwargs a0 Ha0 Hlen Hkw) as (q & password & ->).
    by rewrite Hread, Hseek, Htext.
  - intros Hlen Hkw Hlacks.
    destruct (open_pdf_dispatch args kwargs a0 Ha0 Hlen Hkw) as (q & password & ->).
    exists q, password.
    by destruct Hlacks as [-> | ->]; [|rewrite andb_false_r].
  - by apply open_pdf_text_stream_unread.
Qed.

(** C8.  Every write that save performs uses a writer on the given
    document whose static-id setting is the [static_id] argument and whose
    stream data mode is [qpdf_s_uncompress] when [static_id] is true and
    the untouched default of a fresh writer when it is false.  No other
    argument of save reaches the writer's settings. *)
Theorem save_writer_settings q filename static_id preserve_pdfa w :
  EvWrite w ∈ trace (save q filename static_id preserve_pdfa) ->
  w_pdf w = q /\
  w_static_id w = static_id /\
  w_stream_data_mode w
  = if static_id then qpdf_s_uncompress else default_stream_data_mode.
Proof.
  unfold save, mbind, M_bind.
  rewrite trace_bind, fsencode_filename_trace.
  destruct (outcome (fsencode_filename filename)) as [fn|e]; [|set_solver].
  rewrite !trace_bind. unfold call, outcome, trace. simpl.
  intros Hin.
  assert (w = (if static_id
               then setStreamDataMode qpdf_s_uncompress
                      (setStaticID true (mkWriter q fn false default_stream_data_mode))
               else mkWriter q fn false default_stream_data_mode)) as ->.
  { destruct (QPDFWriter_open q fn); [|set_solver].
    rewrite !elem_of_cons in Hin.
    destruct Hin as [Hin|[Hin|[Hin|Hin]]]; [done|done|by injection Hin|].
    destruct (QPDFWriter_write _); [|set_solver].
    destruct preserve_pdfa; simpl in Hin; set_solver. }
  by destruct static_id.
Qed.

End BindingSpec.

(** *** The theorems at work on the sample runtime *)

(** A wrong password on the encrypted file: libqpdf throws code 4, which
    is [qpdf_e_password] here; open fails with it and Python sees
    PasswordError. *)
Lemma open_failure_translation_witness :
  sample_EvProcessFile (mkSampleQpdf true false true None) "enc.pdf" "guess"
    ∈ trace (sample_open [SStr "enc.pdf"] {["password" := SStr "guess"]}) /\
  outcome (sample_open [SStr "enc.pdf"] {["password" := SStr "guess"]})
    = Throw (QPDFExc 4 "invalid password") /\
  sample_translator (QPDFExc 4 "invalid password")
    = Some (PasswordError "invalid password") /\
  raised_by_engine (sample_open [SStr "enc.pdf"] {["password" := SStr "guess"]})
    (QPDFExc 4 "invalid password").
Proof.
  assert (sample_EvProcessFile (mkSampleQpdf true false true None) "enc.pdf" "guess"
            ∈ trace (sample_open [SStr "enc.pdf"] {["password" := SStr "guess"]}))
    as Hev.
  { vm_compute. apply list_elem_of_further, list_elem_of_here. }
  destruct (open_failure_translation (py := sample_runtime) (lib := sample_libqpdf)
              [SStr "enc.pdf"] {["password" := SStr "guess"]})
    as (_ & Hforward & Hback).
  destruct (Hforward _ 4%Z "invalid password" Hev eq_refl) as [Hfail Htranslated].
  destruct (Hback _ Hfail) as (_ & _ & _ & Hengine).
  split; [exact Hev|]. split; [exact Hfail|]. split; [exact Htranslated|].
  apply (Hengine 4%Z "invalid password"). reflexivity.
Defined.

(** C1 as it is written fails.  Opening a text-mode stream over the
    encrypted document fails with the binding's type error, which the
    translator does not handle: the module makes it neither a
    PasswordError nor a PDFError. *)
Lemma open_type_error_untranslated :
  ¬ every_open_failure_is_translated (py := sample_runtime) (lib := sample_libqpdf)
      [SFile true "enc"] ∅.
Proof.
  intros Hclaim.
  destruct (Hclaim (type_error "stream must be binary, readable and seekable"))
    as [what [Htr|Htr]]; [by vm_compute|discriminate Htr|discriminate Htr].
Qed.

Lemma open_pdf_argument_count_witness :
  (length (@nil sample_obj) = 0 /\
   sample_open [] ∅ = ([], Throw (value_error "not enough arguments"))) /\
  (2 < length [SStr "plain.pdf"; SStr "owner"; SBool true] /\
   sample_open [SStr "plain.pdf"; SStr "owner"; SBool true] ∅
   = ([], Throw (value_error "too many arguments"))).
Proof.
  split; split.
  - reflexivity.
  - apply (proj1 (open_pdf_argument_count (py := sample_runtime) (lib := sample_libqpdf)
                    [] ∅)).
    reflexivity.
  - simpl. lia.
  - apply (proj2 (open_pdf_argument_count (py := sample_runtime) (lib := sample_libqpdf)
                    [SStr "plain.pdf"; SStr "owner"; SBool true] ∅)).
    simpl. lia.
Defined.

Lemma sample_kwargs_convert :
  kwargs_convert (py := sample_runtime)
    (<["password" := SStr "owner"]> {["attempt_recovery" := SBool false]}).
Proof.
  split.
  - intros o Ho. vm_compute in Ho. injection Ho as <-. by eexists.
  - intros key o Hkey Ho. rewrite !elem_of_cons in Hkey.
    destruct Hkey as [->|[->|[->|Hkey]]]; [..|by apply elem_of_nil in Hkey];
      vm_compute in Ho; try discriminate Ho.
    injection Ho as <-. by eexists.
Defined.

Lemma open_pdf_stream_or_path_witness :
  sample_open [SFile true "plain"]
    (<["password" := SStr "owner"]> {["attempt_recovery" := SBool false]})
  = ([], Throw (type_error "stream must be binary, readable and seekable")) /\
  (exists q password,
     sample_open [SStr "plain.pdf"; SStr "unused"]
       (<["password" := SStr "owner"]> {["attempt_recovery" := SBool false]})
     = bind (sample_fsencode (SStr "plain.pdf")) (fun filename =>
       sample_call (EvProcessFile q filename password)
                   (processFile q filename password))) /\
  trace (sample_open [SFile true "plain"; SInt 1; SInt 2] ∅) = [].
Proof.
  split; [|split].
  - apply (proj1 (open_pdf_stream_or_path (py := sample_runtime) (lib := sample_libqpdf)
                    [SFile true "plain"] _ (SFile true "plain") eq_refl));
      [simpl; lia|exact sample_kwargs_convert|reflexivity..].
  - apply (proj1 (proj2 (open_pdf_stream_or_path
                    (py := sample_runtime) (lib := sample_libqpdf)
                    [SStr "plain.pdf"; SStr "unused"] _ (SStr "plain.pdf") eq_refl)));
      [simpl; lia|exact sample_kwargs_convert|left; reflexivity].
  - apply (proj2 (proj2 (open_pdf_stream_or_path
                    (py := sample_runtime) (lib := sample_libqpdf)
                    [SFile true "plain"; SInt 1; SInt 2] ∅ (SFile true "plain") eq_refl)));
      reflexivity.
Defined.

(** C10 as it is written fails.  With three positional arguments the
    argument count is refused first, and a keyword argument that does not
    convert is refused before the stream is looked at. *)
Lemma text_stream_other_errors_first :
  ¬ text_stream_is_type_error (py := sample_runtime) (lib := sample_libqpdf)
      [SFile true "plain"; SInt 1; SInt 2] ∅ /\
  ¬ text_stream_is_type_error (py := sample_runtime) (lib := sample_libqpdf)
      [SFile true "plain"] {["attempt_recovery" := SStr "yes"]}.
Proof.
  split; intros Hclaim;
    specialize (Hclaim (SFile true "plain") eq_refl eq_refl eq_refl eq_refl);
    vm_compute in Hclaim; discriminate Hclaim.
Qed.

Lemma save_writer_settings_witness :
  EvWrite (mkWriter (QPDF_new (Libqpdf := sample_libqpdf)) "out.pdf" true qpdf_s_uncompress)
    ∈ trace (sample_save QPDF_new (SStr "out.pdf") true false) /\
  EvWrite (mkWriter (QPDF_new (Libqpdf := sample_libqpdf)) "out.pdf" false qpdf_s_compress)
    ∈ trace (sample_save QPDF_new (SStr "out.pdf") false true) /\
  w_stream_data_mode
    (mkWriter (QPDF_new (Libqpdf := sample_libqpdf)) "out.pdf" true qpdf_s_uncompress)
  = qpdf_s_uncompress.
Proof.
  assert (EvWrite (mkWriter (QPDF_new (Libqpdf := sample_libqpdf)) "out.pdf" true
                     qpdf_s_uncompress)
            ∈ trace (sample_save QPDF_new (SStr "out.pdf") true false)) as Hin.
  { vm_compute. apply list_elem_of_further, list_elem_of_further, list_elem_of_here. }
  split; [exact Hin|]. split.
  - vm_compute. apply list_elem_of_further, list_elem_of_further, list_elem_of_here.
  - apply (save_writer_settings (py := sample_runtime) (lib := sample_libqpdf)
             _ _ _ _ _ Hin).
Defined.

End BindingSpec.

(** ** Properties of the document engine *)

Module EngineSpec.
Import Engine.

Section EngineSpec.

Context {parser : ObjectParser}.

(** *** The walk of the page tree *)

Lemma reach_from_mono d (s1 s2 : list ObjectId) n :
  (forall m, m ∈ s1 -> reach_from d s2 m) -> reach_from d s1 n -> reach_from d s2 n.
Proof.
  intros Hsub. induction 1 as [n Hn|n k _ IH Hk]; [by apply Hsub|].
  by apply reach_kid with n.
Qed.

Lemma reach_from_expand d id rest n :
  reach_from d (kids d id ++ rest) n -> reach_from d (id :: rest) n.
Proof.
  apply reach_from_mono. intros m [Hm|Hm]%elem_of_app.
  - apply reach_kid with id; [|done]. apply reach_start. by left.
  - apply reach_start. by right.
Qed.

Lemma walk_spec d visited todo :
  match walk d visited todo with
  | Ok vs => walk_ok d visited todo vs
  | Err e => exists n, reach_from d todo n /\ resolve d n = Err e
  end.
Proof.
  funelim (walk d visited todo).
  - split; simpl.
    + constructor.
    + intros n; by rewrite elem_of_nil.
    + intros n; by rewrite elem_of_nil.
    + intros n k; by rewrite elem_of_nil.
    + intros n c; by rewrite elem_of_nil.
    + intros n; by rewrite elem_of_nil.
  - destruct (walk d visited rest) as [vs|e'].
    + destruct H as [Honce Hfresh Hdone Hkind Hclosed Hreach].
      split; try done.
      * intros n [->|Hn]%elem_of_cons; [by left|by apply Hdone].
      * intros n Hn. eapply reach_from_mono; [|by apply Hreach].
        intros m Hm. apply reach_start. by right.
    + destruct H as (n & Hn & Herr). exists n. split; [|done].
      eapply reach_from_mono; [|done].
      intros m Hm. apply reach_start. by right.
  - assert (kids d id = expand (classify v)) as Hkids
      by (unfold kids; by rewrite e).
    destruct (walk d ({[id]} ∪ visited) (expand (classify v) ++ rest)) as [vs|e'];
      simpl.
    + destruct H as [Honce Hfresh Hdone Hkind Hclosed Hreach].
      split; simpl.
      * apply NoDup_cons. split; [|done].
        intros Hin. apply Hfresh in Hin. set_solver.
      * intros m [->|Hm]%elem_of_cons; [done|].
        apply Hfresh in Hm. set_solver.
      * intros m [->|Hm]%elem_of_cons; [right; by left|].
        destruct (Hdone m) as [Hv|Hv]; [set_solver| |by right; right].
        apply elem_of_union in Hv as [->%elem_of_singleton|Hv];
          [right; by left|by left].
      * intros m k [[= -> ->]|Hm]%elem_of_cons; [by exists v|by apply Hkind].
      * intros m c [->|Hm]%elem_of_cons Hc.
        -- rewrite Hkids in Hc.
           destruct (Hdone c) as [Hv|Hv]; [set_solver| |by right; right].
           apply elem_of_union in Hv as [->%elem_of_singleton|Hv];
             [right; by left|by left].
        -- destruct (Hclosed m c Hm Hc) as [Hv|Hv]; [|by right; right].
           apply elem_of_union in Hv as [->%elem_of_singleton|Hv];
             [right; by left|by left].
      * intros m [->|Hm]%elem_of_cons; [apply reach_start; by left|].
        apply reach_from_expand. rewrite Hkids. by apply Hreach.
    + destruct H as (m & Hm & Herr). exists m. split; [|done].
      apply reach_from_expand. by rewrite Hkids.
  - exists id. split; [|done]. apply reach_start. by left.
Qed.

Lemma page_of_Some visit p : page_of visit = Some p <-> visit = (p, PageLeaf).
Proof.
  destruct visit as [n k]. unfold page_of. simpl.
  destruct k; split; intros H; try discriminate H; by injection H as ->.
Qed.

Lemma NoDup_pages (vs : list (ObjectId * node_kind)) :
  NoDup vs.*1 -> NoDup (omap page_of vs).
Proof.
  induction vs as [|[n k] vs IH]; simpl; [constructor|].
  intros [Hn Hvs]%NoDup_cons. specialize (IH Hvs).
  destruct (page_of (n, k)) as [p|] eqn:Hp; [|done].
  apply page_of_Some in Hp as [= <- _].
  apply NoDup_cons. split; [|done].
  intros (visit & Hvisit & Hin)%list_elem_of_omap.
  apply page_of_Some in Hin as ->. apply Hn.
  change n with (n, PageLeaf).1. by apply list_elem_of_fmap_2.
Qed.

Lemma walk_covers d r vs n :
  walk_ok d ∅ [r] vs -> reach_from d [r] n -> n ∈ vs.*1.
Proof.
  intros Hok. induction 1 as [n Hn|n k _ IH Hk].
  - destruct (walk_done _ _ _ _ Hok n Hn) as [Hv|Hv]; [set_solver|done].
  - destruct (walk_closed _ _ _ _ Hok n k IH Hk) as [Hv|Hv]; [set_solver|done].
Qed.

(** C5.  The enumeration of pages is a total function of the document, so
    it comes back for every document, cyclic page trees included.  When
    it comes back with the visits of the walk, no id occurs twice among
    them and they are exactly the ids the /Kids entries lead to from
    /Root/Pages; the page list has no page twice and holds exactly the
    pages among those ids.  It comes back with an error only when the root
    is not a catalog or an id the /Kids entries lead to has malformed
    bytes. *)
Theorem all_pages_cycle_safe d :
  match visits d with
  | Ok vs =>
      NoDup vs.*1 /\
      (forall n, n ∈ vs.*1 <-> reach d n) /\
      exists pages,
        all_pages d = Ok pages /\ NoDup pages /\
        forall p, p ∈ pages <-> page_reachable d p
  | Err e =>
      all_pages d = Err e /\
      (pages_root d = Err e \/ exists n, reach d n /\ resolve d n = Err e)
  end.
Proof.
  unfold all_pages, visits, page_reachable, reach.
  destruct (pages_root d) as [[r|]|e] eqn:Hroot; simpl.
  - pose proof (walk_spec d ∅ [r]) as Hwalk.
    destruct (walk d ∅ [r]) as [vs|e]; simpl.
    + assert (forall n, n ∈ vs.*1 <-> exists r', Ok (Some r) = Ok (Some r') /\ reach_from d [r'] n)
        as Hnodes.
      { intros n. split.
        - intros Hn. exists r. split; [done|]. by apply (walk_reach _ _ _ _ Hwalk).
        - intros (r' & [= <-] & Hn). by apply (walk_covers d r). }
      split; [apply (walk_once _ _ _ _ Hwalk)|]. split; [done|].
      eexists. split; [done|]. split; [apply NoDup_pages, (walk_once _ _ _ _ Hwalk)|].
      intros p. rewrite <- Hnodes, list_elem_of_omap. split.
      * intros (visit & Hvisit & ->%page_of_Some). split.
        -- change p with (p, PageLeaf).1. by apply list_elem_of_fmap_2.
        -- apply (walk_kind _ _ _ _ Hwalk) in Hvisit. done.
      * intros [((p' & k) & -> & Hvisit)%list_elem_of_fmap (v & Hv & Hpage)].
        exists (p', k). split; [done|]. apply page_of_Some. simpl in *.
        destruct (walk_kind _ _ _ _ Hwalk _ _ Hvisit) as (v' & Hv' & <-).
        congruence.
    + split; [done|]. right. destruct Hwalk as (n & Hn & Herr).
      exists n. split; [|done]. by exists r.
  - split; [constructor|]. split.
    + intros n. rewrite elem_of_nil. split; [done|]. by intros (r & [=] & _).
    + exists []. split; [done|]. split; [constructor|].
      intros p. rewrite elem_of_nil. split; [done|]. by intros [(r & [=] & _) _].
  - split; [done|]. by left.
Qed.

(** *** Removed objects *)

Lemma get_object_removed d n g :
  removed d n -> get_object d (mkObjectId n g) = (Ok Null, d).
Proof.
  intros (g0 & Hx & Hc). unfold get_object. simpl. rewrite Hx, Hc.
  by destruct (decide (g0 = g)).
Qed.

Lemma removed_parse_object d m off n :
  m ≠ n -> removed d n -> removed (parse_object d m off).2 n.
Proof.
  intros Hne (g & Hx & Hc). exists g. unfold parse_object.
  destruct (parse_at off).2; simpl; [|done].
  by rewrite lookup_insert_ne.
Qed.

Lemma removed_get_object d id n :
  removed d n -> removed (get_object d id).2 n.
Proof.
  intros Hrem. destruct (decide (number id = n)) as [<-|Hne].
  { destruct id as [m g]. by rewrite get_object_removed. }
  unfold get_object.
  destruct (xref d !! number id) as [[g e]|]; [|done].
  destruct (decide (g = generation id)); [|done].
  destruct (cache d !! number id); [done|].
  destruct e as [|[off|]|c idx]; try done.
  { by apply removed_parse_object. }
  unfold get_compressed.
  destruct (xref d !! number c) as [[gc [|[off|]|]]|] eqn:Hc; try done.
  destruct (decide (gc = generation c)); [|done].
  assert (number c ≠ n) as Hcn.
  { intros <-. destruct Hrem as (g0 & Hx & _). congruence. }
  assert (removed (match cache d !! number c with
                   | Some s => (Ok s, d)
                   | None => parse_object d (number c) off
                   end).2 n) as Hrem'.
  { destruct (cache d !! number c); [done|]. by apply removed_parse_object. }
  destruct (match cache d !! number c with
            | Some s => (Ok s, d)
            | None => parse_object d (number c) off
            end) as [[s|e'] d1]; simpl in *; [|done].
  destruct (object_stream_member s idx); simpl; [|done].
  destruct Hrem' as (g0 & Hx & Hcache). exists g0.
  simpl. by rewrite lookup_insert_ne.
Qed.

Lemma removed_after_lookups d ids n :
  removed d n -> removed (after_lookups d ids) n.
Proof.
  revert d. induction ids as [|id ids IH]; intros d Hrem; [done|].
  simpl. by apply IH, removed_get_object.
Qed.

Lemma remove_object_removed d n d' :
  remove_object d n = Ok d' -> removed d' n.
Proof.
  unfold remove_object. destruct (xref d !! n) as [[g e]|]; [|done].
  intros [= <-]. exists (S g). simpl.
  by rewrite lookup_insert_eq, lookup_delete_eq.
Qed.

Lemma remove_page_removed d page d' :
  remove_page d page = Ok d' -> removed d' (number page).
Proof.
  unfold remove_page. destruct (get_object d page).1 as [v|]; [|done].
  simpl. destruct v; try done.
  destruct (match entries !! "Parent" with
            | Some (IndirectReference parent) => detach (get_object d page).2 parent page
            | _ => Ok (get_object d page).2
            end) as [d1|]; [|done].
  simpl. apply remove_object_removed.
Qed.

(** C6.  After remove_page has removed a page, dereferencing the page's
    object number, at any generation, gives Null and no error, and leaves
    the document as it is; this stays so after any further lookups. *)
Theorem removed_page_resolves_to_null d page d' :
  remove_page d page = Ok d' ->
  forall ids g,
    get_object (after_lookups d' ids) (mkObjectId (number page) g)
    = (Ok Null, after_lookups d' ids).
Proof.
  intros Hrem ids g.
  apply get_object_removed, removed_after_lookups.
  by apply remove_page_removed with d.
Qed.

(** *** The warnings channel *)

Lemma get_object_accumulates d id :
  exists new, warnings (get_object d id).2 = warnings d ++ new.
Proof.
  assert (forall d n off,
    exists new, warnings (parse_object d n off).2 = warnings d ++ new) as Hparse.
  { intros d0 n off. unfold parse_object. exists (parse_at off).1.
    by destruct (parse_at off).2. }
  unfold get_object.
  destruct (xref d !! number id) as [[g e]|]; [|by exists []; rewrite app_nil_r].
  destruct (decide (g = generation id)); [|by exists []; rewrite app_nil_r].
  destruct (cache d !! number id); [by exists []; rewrite app_nil_r|].
  destruct e as [|[off|]|c idx]; try (by exists []; rewrite app_nil_r).
  { apply Hparse. }
  unfold get_compressed.
  destruct (xref d !! number c) as [[gc [|[off|]|]]|];
    try (by exists []; rewrite app_nil_r).
  destruct (decide (gc = generation c)); [|by exists []; rewrite app_nil_r].
  assert (exists new, warnings (match cache d !! number c with
                                | Some s => (Ok s, d)
                                | None => parse_object d (number c) off
                                end).2 = warnings d ++ new) as [new Hnew].
  { destruct (cache d !! number c); [by exists []; rewrite app_nil_r|apply Hparse]. }
  exists new.
  destruct (match cache d !! number c with
            | Some s => (Ok s, d)
            | None => parse_object d (number c) off
            end) as [[s|e'] d1]; simpl in *; [|done].
  by destruct (object_stream_member s idx).
Qed.

(** C7.  get_warnings returns the diagnostics accumulated in the document
    and leaves a document that differs only in having none, so that a
    second get_warnings right after it returns the empty sequence.
    Lookups in between only add to what the next call returns. *)
Theorem get_warnings_drains d :
  (get_warnings d).1 = warnings d /\
  (get_warnings (get_warnings d).2).1 = [] /\
  (get_warnings d).2 = mkDocument (xref d) (cache d) (trailer d) (next_id d) [] /\
  (forall ids, exists new, (get_warnings (after_lookups d ids)).1 = warnings d ++ new).
Proof.
  repeat split. intros ids. simpl. revert d.
  induction ids as [|id ids IH]; intros d; simpl.
  - exists []. by rewrite app_nil_r.
  - destruct (IH (get_object d id).2) as [new2 ->].
    destruct (get_object_accumulates d id) as [new1 ->].
    exists (new1 ++ new2). by rewrite app_assoc.
Qed.

End EngineSpec.

(** *** The theorems at work on the sample document *)

(** The page tree of the sample document loops back to node 2 twice; its
    pages come out once each, in document order. *)
Example sample_all_pages :
  all_pages (parser := sample_parser) sample_document
  = Ok [mkObjectId 3 0; mkObjectId 5 0].
Proof. by vm_compute. Qed.

Lemma removed_page_resolves_to_null_witness :
  remove_page (parser := sample_parser) sample_document (mkObjectId 5 0)
    = Ok sample_without_page_5 /\
  sample_get_object
    (sample_after_lookups sample_without_page_5 [mkObjectId 4 0; mkObjectId 5 0])
    (mkObjectId 5 1)
  = (Ok Null,
     sample_after_lookups sample_without_page_5 [mkObjectId 4 0; mkObjectId 5 0]).
Proof.
  assert (remove_page (parser := sample_parser) sample_document (mkObjectId 5 0)
          = Ok sample_without_page_5) as Hremoved
    by (vm_compute; reflexivity).
  split; [exact Hremoved|].
  apply (removed_page_resolves_to_null (parser := sample_parser)
           sample_document (mkObjectId 5 0) sample_without_page_5 Hremoved
           [mkObjectId 4 0; mkObjectId 5 0] 1).
Defined.

(** Looking page 5 up parses it and leaves its diagnostic on the channel;
    the first drain returns it, the second nothing. *)
Example sample_get_warnings :
  let d := (sample_get_object sample_document (mkObjectId 5 0)).2 in
  (get_warnings d).1 = ["object 5: recovered"] /\
  (get_warnings (get_warnings d).2).1 = [].
Proof. by vm_compute. Qed.

End EngineSpec.

(** ** Properties of the rest of the binding *)

Module SurfaceSpec.
Import Binding Surface BindingSpec.

Section SurfaceSpec.

Context {py : PyRuntime} {lib : Libqpdf} {names : LibqpdfNames}.

Lemma kwargs_to_method_flag kwargs key q callback :
  kwargs_to_method kwargs key q callback
  = if bad_flag kwargs key
    then throw (type_error (key +:+ ": unsupported argument type"))
    else ret (flag kwargs key callback q).
Proof.
  unfold kwargs_to_method, bad_flag, flag, cast.
  destruct (kwargs !! key) as [o|]; [|done]. by destruct (cast_bool o).
Qed.

Lemma open_pdf_prepare args kwargs a0 :
  args !! 0%nat = Some a0 -> length args <= 2 ->
  open_pdf args kwargs
  = match prepare kwargs with
    | Ok (password, q) => dispatch a0 q password
    | Throw e => throw e
    end.
Proof.
  intros Ha0 Hlen. unfold open_pdf, mbind, M_bind.
  destruct (Nat.ltb_spec (length args) 1) as [Hlt|_].
  { apply lookup_lt_Some in Ha0. lia. }
  destruct (Nat.ltb_spec 2 (length args)) as [Hlt|_]; [lia|].
  unfold prepare, bad_password, password_of, first_bad_flag, configured, cast.
  rewrite !kwargs_to_method_flag.
  destruct (kwargs !! "password") as [o|]; [destruct (cast_string o)|];
    try done; rewrite bind_ret; simpl;
    (destruct (bad_flag kwargs "ignore_xref_streams"); [done|]);
    rewrite bind_ret, kwargs_to_method_flag;
    (destruct (bad_flag kwargs "suppress_warnings"); [done|]);
    rewrite bind_ret, kwargs_to_method_flag;
    (destruct (bad_flag kwargs "attempt_recovery"); [done|]);
    by rewrite bind_ret, Ha0.
Qed.

Lemma open_pdf_no_first args kwargs :
  args !! 0%nat = None ->
  open_pdf args kwargs = ([], Throw (value_error "not enough arguments")).
Proof.
  intros Hnone. apply lookup_ge_None in Hnone.
  apply (proj1 (open_pdf_argument_count args kwargs)). lia.
Qed.

Lemma open_pdf_too_many args kwargs :
  2 < length args ->
  open_pdf args kwargs = ([], Throw (value_error "too many arguments")).
Proof. apply (proj2 (open_pdf_argument_count args kwargs)). Qed.

Lemma prepare_Ok kwargs password q :
  prepare kwargs = Ok (password, q) ->
  password = password_of kwargs /\ q = configured kwargs.
Proof.
  unfold prepare. destruct (bad_password kwargs); [done|].
  destruct (first_bad_flag kwargs); [done|]. by intros [= <- <-].
Qed.

Lemma fsencode_filename_eq o :
  fsencode_filename o
  = ([EvFspath o],
     match fspath o with
     | Returns r =>
         match cast_string r with
         | Some filename => Ok filename
         | None => Throw (type_error "expected pathlike object")
         end
     | Raises pyexc => Throw (error_already_set pyexc)
     end).
Proof.
  unfold fsencode_filename, catch_cast_error, mbind, M_bind, bind, call, cast.
  simpl. destruct (fspath o) as [r|]; simpl; [|done].
  by destruct (cast_string r).
Qed.

Lemma dispatch_trace a0 q password :
  dispatch_calls a0 q password (trace (dispatch a0 q password)).
Proof.
  unfold dispatch.
  destruct (hasattr a0 "read" && hasattr a0 "seek").
  - destruct (isinstance_TextIOBase a0); [constructor|].
    unfold trace, bind, call, to_bytes. simpl.
    destruct (call_read a0) as [r|] eqn:Hr; simpl; [|constructor].
    destruct (cast_bytes r) as [data|] eqn:Hdata; simpl; [|constructor].
    by apply calls_memory with r.
  - rewrite fsencode_filename_eq. unfold trace, bind, call. simpl.
    destruct (fspath a0) as [r|] eqn:Hr; simpl; [|constructor].
    destruct (cast_string r) as [filename|] eqn:Hfn; simpl; [|constructor].
    by apply calls_file with r.
Qed.

(** X1.  The second positional argument is never looked at: a call with
    two positional arguments does what the call with the first alone
    does. *)
Theorem open_pdf_second_argument_unused a0 a1 kwargs :
  open_pdf [a0; a1] kwargs = open_pdf [a0] kwargs.
Proof.
  rewrite (open_pdf_prepare [a0; a1] kwargs a0), (open_pdf_prepare [a0] kwargs a0);
    simpl; done || lia.
Qed.

Lemma prepare_same_options kwargs kwargs' :
  same_options kwargs kwargs' -> prepare kwargs = prepare kwargs'.
Proof.
  intros Hsame.
  unfold prepare, bad_password, password_of, first_bad_flag, configured,
    flag_keys, flag. cbn [List.find]. unfold bad_flag.
  rewrite (Hsame "password"), (Hsame "ignore_xref_streams"),
    (Hsame "suppress_warnings"), (Hsame "attempt_recovery");
    [done|unfold flag_keys; set_solver..].
Qed.

(** X2.  Keywords other than password, ignore_xref_streams,
    suppress_warnings and attempt_recovery are never looked at: two calls
    whose keyword arguments agree on these four do the same. *)
Theorem open_pdf_other_keywords_unused args kwargs kwargs' :
  same_options kwargs kwargs' ->
  open_pdf args kwargs = open_pdf args kwargs'.
Proof.
  intros Hsame. destruct (args !! 0%nat) as [a0|] eqn:Ha0.
  - destruct (decide (length args <= 2)) as [Hlen|Hlen].
    + rewrite !(open_pdf_prepare args _ a0) by done.
      by rewrite (prepare_same_options kwargs kwargs').
    + rewrite !open_pdf_too_many by lia. done.
  - by rewrite !open_pdf_no_first.
Qed.

Lemma open_pdf_trace args kwargs :
  trace (open_pdf args kwargs) = [] \/
  exists a0, args !! 0%nat = Some a0 /\
    dispatch_calls a0 (configured kwargs) (password_of kwargs)
      (trace (open_pdf args kwargs)).
Proof.
  destruct (args !! 0%nat) as [a0|] eqn:Ha0; [|left; by rewrite open_pdf_no_first].
  destruct (decide (length args <= 2)) as [Hlen|Hlen];
    [|left; rewrite open_pdf_too_many by lia; done].
  rewrite (open_pdf_prepare args kwargs a0) by done.
  destruct (prepare kwargs) as [[password q]|e] eqn:Hprep; [|by left].
  apply prepare_Ok in Hprep as [-> ->].
  right. exists a0. split; [done|]. apply dispatch_trace.
Qed.

(** X4.  The calls an open makes, in order, are one of: none; the read of
    the first argument; that read and then one processMemoryFile of the
    bytes read; the fspath of the first argument; that fspath and then
    one processFile of the name it gave.  So a stream is read at most
    once, libqpdf processes at most once and last, and no call both reads
    the argument and converts it to a path. *)
Theorem open_pdf_calls args kwargs :
  trace (open_pdf args kwargs) = [] \/
  exists a0, args !! 0%nat = Some a0 /\
    dispatch_calls a0 (configured kwargs) (password_of kwargs)
      (trace (open_pdf args kwargs)).
Proof. apply open_pdf_trace. Qed.

(** X3.  Whenever open hands a document to libqpdf, the QPDF it uses is a
    fresh one with warnings suppressed and then the keywords
    ignore_xref_streams, suppress_warnings and attempt_recovery applied in
    this order (so a suppress_warnings keyword overrides the default), and
    the password is the password keyword, or the empty string without
    one. *)
Theorem open_pdf_processes_as_configured args kwargs ev :
  ev ∈ trace (open_pdf args kwargs) ->
  (forall q data password, ev = EvProcessMemoryFile q data password ->
     q = configured kwargs /\ password = password_of kwargs) /\
  (forall q filename password, ev = EvProcessFile q filename password ->
     q = configured kwargs /\ password = password_of kwargs).
Proof.
  intros Hev.
  destruct (open_pdf_trace args kwargs) as [Hnil|(a0 & _ & Hcalls)].
  { rewrite Hnil in Hev. by apply elem_of_nil in Hev. }
  destruct Hcalls; set_unfold; naive_solver.
Qed.

Lemma dispatch_returns a0 q password q' :
  outcome (dispatch a0 q password) = Ok q' <->
  exists ev, last (trace (dispatch a0 q password)) = Some ev /\
             engine_result ev = Some (Ok q').
Proof.
  unfold dispatch.
  destruct (hasattr a0 "read" && hasattr a0 "seek").
  - destruct (isinstance_TextIOBase a0).
    { split; [done|]. by intros (ev & [=] & _). }
    unfold outcome, trace, bind, call, to_bytes. simpl.
    destruct (call_read a0) as [r|]; simpl.
    2:{ split; [done|]. by intros (ev & [= <-] & [=]). }
    destruct (cast_bytes r) as [data|]; simpl.
    2:{ split; [done|]. by intros (ev & [= <-] & [=]). }
    split.
    + intros Hok. eexists. split; [done|]. simpl. by rewrite Hok.
    + by intros (ev & [= <-] & [= ->]).
  - rewrite fsencode_filename_eq. unfold outcome, trace, bind, call. simpl.
    destruct (fspath a0) as [r|]; simpl.
    2:{ split; [done|]. by intros (ev & [= <-] & [=]). }
    destruct (cast_string r) as [filename|]; simpl.
    2:{ split; [done|]. by intros (ev & [= <-] & [=]). }
    split.
    + intros Hok. eexists. split; [done|]. simpl. by rewrite Hok.
    + by intros (ev & [= <-] & [= ->]).
Qed.

(** X5.  open returns a document exactly when its last call was a
    processing call of libqpdf that returned one, and it returns that
    document. *)
Theorem open_pdf_returns_what_libqpdf_returns args kwargs q' :
  outcome (open_pdf args kwargs) = Ok q' <->
  exists ev, last (trace (open_pdf args kwargs)) = Some ev /\
             engine_result ev = Some (Ok q').
Proof.
  assert (forall m : M QPDF, m.1 = [] -> (exists e, m.2 = Throw e) ->
            outcome m = Ok q' <->
            exists ev, last (trace m) = Some ev /\ engine_result ev = Some (Ok q'))
    as Hfail.
  { intros [t r] Ht [e He]. simpl in *. subst. unfold outcome, trace. simpl.
    split; [done|]. by intros (ev & [=] & _). }
  destruct (args !! 0%nat) as [a0|] eqn:Ha0.
  2:{ rewrite open_pdf_no_first by done. apply Hfail; simpl; eauto. }
  destruct (decide (length args <= 2)) as [Hlen|Hlen].
  2:{ rewrite open_pdf_too_many by lia. apply Hfail; simpl; eauto. }
  rewrite (open_pdf_prepare args kwargs a0) by done.
  destruct (prepare kwargs) as [[password q]|e]; [apply dispatch_returns|].
  apply Hfail; simpl; eauto.
Qed.

(** X6.  A password keyword that does not convert to a string makes open
    throw py::cast_error, before any flag is looked at and with no call
    made; unlike a flag, it is not reported as a type error. *)
Theorem open_pdf_password_cast_error args kwargs a0 o :
  args !! 0%nat = Some a0 -> length args <= 2 ->
  kwargs !! "password" = Some o -> cast_string o = None ->
  open_pdf args kwargs = ([], Throw cast_error).
Proof.
  intros Ha0 Hlen Ho Hcast. rewrite (open_pdf_prepare args kwargs a0) by done.
  unfold prepare, bad_password. by rewrite Ho, Hcast.
Qed.

(** X7.  When the password converts, the first of ignore_xref_streams,
    suppress_warnings and attempt_recovery that is given and does not
    convert to a bool makes open throw the type error that names it, with
    no call made. *)
Theorem open_pdf_flag_type_error args kwargs a0 key :
  args !! 0%nat = Some a0 -> length args <= 2 ->
  bad_password kwargs = false ->
  first_bad_flag kwargs = Some key ->
  open_pdf args kwargs
  = ([], Throw (type_error (key +:+ ": unsupported argument type"))).
Proof.
  intros Ha0 Hlen Hpw Hflag. rewrite (open_pdf_prepare args kwargs a0) by done.
  unfold prepare. by rewrite Hpw, Hflag.
Qed.

Lemma prepare_convert kwargs :
  kwargs_convert kwargs ->
  prepare kwargs = Ok (password_of kwargs, configured kwargs).
Proof.
  intros [Hpw Hflags]. unfold prepare.
  assert (bad_password kwargs = false) as ->.
  { unfold bad_password. destruct (kwargs !! "password") as [o|]; [|done].
    by destruct (Hpw o eq_refl) as [v ->]. }
  assert (forall key, key ∈ flag_keys -> bad_flag kwargs key = false) as Hgood.
  { intros key Hkey. unfold bad_flag.
    destruct (kwargs !! key) as [o|] eqn:Ho; [|done].
    by destruct (Hflags key o Hkey Ho) as [v ->]. }
  unfold first_bad_flag, flag_keys. cbn [List.find].
  by rewrite !Hgood by (unfold flag_keys; set_solver).
Qed.

(** X8.  A binary stream (it has read and seek and is no io.TextIOBase),
    given with at most one more argument and keywords that convert, is
    read once.  If read raises, the Python exception comes out and
    libqpdf processes nothing; if it returns a bytes object, libqpdf
    processes exactly the bytes read, under the description "memory",
    with the configured QPDF and the password, and open ends as that call
    ends. *)
Theorem open_pdf_binary_stream args kwargs a0 :
  args !! 0%nat = Some a0 -> length args <= 2 -> kwargs_convert kwargs ->
  hasattr a0 "read" = true -> hasattr a0 "seek" = true ->
  isinstance_TextIOBase a0 = false ->
  (forall pyexc, call_read a0 = Raises pyexc ->
     open_pdf args kwargs = ([EvRead a0], Throw (error_already_set pyexc))) /\
  (forall r data, call_read a0 = Returns r -> cast_bytes r = Some data ->
     open_pdf args kwargs
     = ([EvRead a0;
         EvProcessMemoryFile (configured kwargs) data (password_of kwargs)],
        processMemoryFile (configured kwargs) "memory" data (password_of kwargs))).
Proof.
  intros Ha0 Hlen Hkw Hread Hseek Htext.
  rewrite (open_pdf_prepare args kwargs a0), (prepare_convert kwargs) by done.
  unfold dispatch. rewrite Hread, Hseek, Htext. simpl.
  unfold bind, call, to_bytes. simpl. split.
  - by intros pyexc ->.
  - intros r data -> Hdata. simpl. by rewrite Hdata.
Qed.

(** X9.  A first argument without read or without seek, given with at
    most one more argument and keywords that convert, goes through fspath
    once.  If fspath raises, the Python exception comes out; if what it
    returns is no string, the type error "expected pathlike object" comes
    out; otherwise libqpdf processes the file of that name with the
    configured QPDF and the password, and open ends as that call ends.
    The argument is never read. *)
Theorem open_pdf_path args kwargs a0 :
  args !! 0%nat = Some a0 -> length args <= 2 -> kwargs_convert kwargs ->
  hasattr a0 "read" = false \/ hasattr a0 "seek" = false ->
  open_pdf args kwargs
  = match fspath a0 with
    | Raises pyexc => ([EvFspath a0], Throw (error_already_set pyexc))
    | Returns r =>
        match cast_string r with
        | None => ([EvFspath a0], Throw (type_error "expected pathlike object"))
        | Some filename =>
            ([EvFspath a0;
              EvProcessFile (configured kwargs) filename (password_of kwargs)],
             processFile (configured kwargs) filename (password_of kwargs))
        end
    end.
Proof.
  intros Ha0 Hlen Hkw Hlacks.
  rewrite (open_pdf_prepare args kwargs a0), (prepare_convert kwargs) by done.
  unfold dispatch.
  assert (hasattr a0 "read" && hasattr a0 "seek" = false) as ->.
  { destruct Hlacks as [-> | ->]; [done|apply andb_false_r]. }
  rewrite fsencode_filename_eq. unfold bind, call. simpl.
  destruct (fspath a0) as [r|]; simpl; [|done].
  by destruct (cast_string r).
Qed.

(** *** [fsencode_filename] *)

(** X10.  fsencode_filename calls fspath exactly once.  A Python exception
    of fspath comes out unchanged; a result that is no string comes out
    as the type error "expected pathlike object" and nothing else does;
    py::cast_error never comes out. *)
Theorem fsencode_filename_outcomes o :
  trace (fsencode_filename o) = [EvFspath o] /\
  outcome (fsencode_filename o) ≠ Throw cast_error /\
  (forall pyexc, fspath o = Raises pyexc <->
     outcome (fsencode_filename o) = Throw (error_already_set pyexc)) /\
  (forall filename, (exists r, fspath o = Returns r /\ cast_string r = Some filename) <->
     outcome (fsencode_filename o) = Ok filename) /\
  (forall msg, outcome (fsencode_filename o) = Throw (type_error msg) <->
     msg = "expected pathlike object" /\
     exists r, fspath o = Returns r /\ cast_string r = None).
Proof.
  rewrite fsencode_filename_eq. unfold trace, outcome. simpl.
  destruct (fspath o) as [r|x]; [destruct (cast_string r) as [fn|] eqn:Hfn|];
    repeat split; try done; try naive_solver.
Qed.

(** *** [save] *)

Lemma save_eq q filename static_id preserve_pdfa :
  save q filename static_id preserve_pdfa
  = match outcome (fsencode_filename filename) with
    | Throw e => ([EvFspath filename], Throw e)
    | Ok fn =>
        match QPDFWriter_open q fn with
        | Throw e => ([EvFspath filename; EvWriterOpen q fn], Throw e)
        | Ok _ =>
            let w := save_writer q fn static_id in
            match QPDFWriter_write w with
            | Throw e => ([EvFspath filename; EvWriterOpen q fn; EvWrite w], Throw e)
            | Ok _ =>
                if preserve_pdfa
                then ([EvFspath filename; EvWriterOpen q fn; EvWrite w;
                       EvRepairPdfa filename],
                      from_python (repair_pdfa filename))
                else ([EvFspath filename; EvWriterOpen q fn; EvWrite w], Ok tt)
            end
        end
    end.
Proof.
  unfold save, save_writer, mbind, M_bind. rewrite fsencode_filename_eq.
  unfold outcome, bind, call. simpl.
  destruct (fspath filename) as [r|]; simpl; [|done].
  destruct (cast_string r) as [fn|]; simpl; [|done].
  destruct (QPDFWriter_open q fn); simpl; [|done].
  destruct (QPDFWriter_write _); simpl; [|done].
  by destruct preserve_pdfa.
Qed.

Lemma fsencode_filename_Ok o fn :
  outcome (fsencode_filename o) = Ok fn <->
  exists r, fspath o = Returns r /\ cast_string r = Some fn.
Proof.
  rewrite fsencode_filename_eq. unfold outcome. simpl.
  destruct (fspath o) as [r|x]; [destruct (cast_string r) eqn:Hfn|]; naive_solver.
Qed.

Lemma written_iff q filename static_id fn :
  written q filename static_id fn <->
  outcome (fsencode_filename filename) = Ok fn /\
  QPDFWriter_open q fn = Ok tt /\
  QPDFWriter_write (save_writer q fn static_id) = Ok tt.
Proof. unfold written. by rewrite fsencode_filename_Ok. Qed.

(** X11.  save ends well exactly when fspath gave a name, the writer
    opened that file, the write went through and, with preserve_pdfa, the
    repair helper returned. *)
Theorem save_succeeds_iff q filename static_id preserve_pdfa :
  outcome (save q filename static_id preserve_pdfa) = Ok tt <->
  exists fn, written q filename static_id fn /\
    (preserve_pdfa = true -> repair_pdfa filename = Returns tt).
Proof.
  rewrite save_eq. setoid_rewrite written_iff.
  destruct (outcome (fsencode_filename filename)) as [fn|e] eqn:Hfn.
  2:{ split; [intros [=]|]. intros (fn & (Hbad & _) & _). discriminate Hbad. }
  destruct (QPDFWriter_open q fn) as [[]|e] eqn:Hopen; simpl.
  2:{ split; [intros [=]|]. intros (fn' & (Hfn' & Hopen' & _) & _).
      injection Hfn' as <-. congruence. }
  destruct (QPDFWriter_write _) as [[]|e] eqn:Hwrite; simpl.
  2:{ split; [intros [=]|]. intros (fn' & (Hfn' & _ & Hwrite') & _).
      injection Hfn' as <-. congruence. }
  destruct preserve_pdfa; unfold outcome; simpl.
  - destruct (repair_pdfa filename) as [[]|x] eqn:Hrepair; simpl.
    + split; [|done]. intros _. by exists fn.
    + split; [intros [=]|]. intros (fn' & _ & Hret).
      specialize (Hret eq_refl). discriminate Hret.
  - split; [|done]. intros _. by exists fn.
Qed.

(** X12.  save calls the PDF/A repair helper exactly when preserve_pdfa is
    set and the write went through, and it passes the filename object it
    was given, not the encoded name. *)
Theorem save_repairs_after_write q filename static_id preserve_pdfa o :
  EvRepairPdfa o ∈ trace (save q filename static_id preserve_pdfa) <->
  o = filename /\ preserve_pdfa = true /\
  exists fn, written q filename static_id fn.
Proof.
  rewrite save_eq. setoid_rewrite written_iff.
  assert (forall t : list event,
            (forall ev, ev ∈ t -> forall o', ev ≠ EvRepairPdfa o') ->
            ¬ EvRepairPdfa o ∈ t) as Hnot.
  { intros t Ht Hin. by apply (Ht _ Hin o). }
  destruct (outcome (fsencode_filename filename)) as [fn|e] eqn:Hfn.
  2:{ split; [|by intros (_ & _ & fn & [=] & _)]. intros Hin.
      destruct (Hnot [EvFspath filename]); [|done].
      intros ev ->%list_elem_of_singleton. done. }
  destruct (QPDFWriter_open q fn) as [[]|e] eqn:Hopen; simpl.
  2:{ split.
      - intros Hin. destruct (Hnot [EvFspath filename; EvWriterOpen q fn]); [|done].
        intros ev Hev o'. rewrite !elem_of_cons, elem_of_nil in Hev.
        destruct Hev as [->|[->|[]]]; done.
      - intros (_ & _ & fn' & Hfn' & Hopen' & _). injection Hfn' as <-. congruence. }
  destruct (QPDFWriter_write _) as [[]|e] eqn:Hwrite; simpl.
  2:{ split.
      - intros Hin. unfold trace in Hin. simpl in Hin.
        rewrite !elem_of_cons, elem_of_nil in Hin.
        destruct Hin as [Hin|[Hin|[Hin|[]]]]; discriminate Hin.
      - intros (_ & _ & fn' & Hfn' & _ & Hwrite'). injection Hfn' as <-. congruence. }
  destruct preserve_pdfa; unfold trace; simpl.
  - rewrite !elem_of_cons, elem_of_nil. split.
    + intros [Hin|[Hin|[Hin|[Hin|[]]]]]; try discriminate Hin.
      injection Hin as ->. split; [done|]. split; [done|]. by exists fn.
    + intros (-> & _ & _). auto.
  - rewrite !elem_of_cons, elem_of_nil. split.
    + intros [Hin|[Hin|[Hin|[]]]]; discriminate Hin.
    + by intros (_ & [=] & _).
Qed.

(** X13.  A failure of save is one of three: an exception that libqpdf
    threw while opening the output file or writing; the type error
    "expected pathlike object" of a name that does not convert; or the
    Python exception that fspath or the repair helper raised, passed on
    unchanged.  The module's translator handles the failure, making it a
    PasswordError or PDFError, only in the first case; the other two it
    leaves to pybind11, with whatever Python class the exception has. *)
Theorem save_failure_translation q filename static_id preserve_pdfa e :
  outcome (save q filename static_id preserve_pdfa) = Throw e ->
  ((exists fn, outcome (fsencode_filename filename) = Ok fn /\
      (QPDFWriter_open q fn = Throw e \/
       (QPDFWriter_open q fn = Ok tt /\
        QPDFWriter_write (save_writer q fn static_id) = Throw e))) \/
   (exception_translator e = None /\
    ((e = type_error "expected pathlike object" /\
      exists r, fspath filename = Returns r /\ cast_string r = None) \/
     (exists pyexc, e = error_already_set pyexc /\
        (fspath filename = Raises pyexc \/
         (preserve_pdfa = true /\ repair_pdfa filename = Raises pyexc /\
          exists fn, written q filename static_id fn)))))) /\
  (is_Some (exception_translator e) ->
   exists fn, outcome (fsencode_filename filename) = Ok fn /\
     (QPDFWriter_open q fn = Throw e \/
      (QPDFWriter_open q fn = Ok tt /\
       QPDFWriter_write (save_writer q fn static_id) = Throw e))).
Proof.
  intros Hfail.
  assert ((exists fn, outcome (fsencode_filename filename) = Ok fn /\
             (QPDFWriter_open q fn = Throw e \/
              (QPDFWriter_open q fn = Ok tt /\
               QPDFWriter_write (save_writer q fn static_id) = Throw e))) \/
          (exception_translator e = None /\
           ((e = type_error "expected pathlike object" /\
             exists r, fspath filename = Returns r /\ cast_string r = None) \/
            (exists pyexc, e = error_already_set pyexc /\
               (fspath filename = Raises pyexc \/
                (preserve_pdfa = true /\ repair_pdfa filename = Raises pyexc /\
                 exists fn, written q filename static_id fn)))))) as Hcases.
  { rewrite save_eq in Hfail.
    destruct (outcome (fsencode_filename filename)) as [fn|e'] eqn:Hfn.
    2:{ right. unfold outcome in Hfail. simpl in Hfail. injection Hfail as ->.
        rewrite fsencode_filename_eq in Hfn. unfold outcome in Hfn. simpl in Hfn.
        destruct (fspath filename) as [r|pyexc] eqn:Hr.
        - destruct (cast_string r) eqn:Hcast; [discriminate Hfn|].
          injection Hfn as <-. split; [done|]. left. split; [done|]. by exists r.
        - injection Hfn as <-. split; [done|]. right. exists pyexc. auto. }
    destruct (QPDFWriter_open q fn) as [[]|e'] eqn:Hopen; simpl in Hfail.
    2:{ injection Hfail as ->. left. exists fn. auto. }
    destruct (QPDFWriter_write _) as [[]|e'] eqn:Hwrite; simpl in Hfail.
    2:{ injection Hfail as ->. left. exists fn. auto. }
    destruct preserve_pdfa; unfold outcome in Hfail; simpl in Hfail; [|done].
    destruct (repair_pdfa filename) as [|pyexc] eqn:Hrepair; simpl in Hfail; [done|].
    injection Hfail as <-. right. split; [done|]. right. exists pyexc.
    split; [done|]. right. split; [done|]. split; [done|].
    exists fn. by apply written_iff. }
  split; [exact Hcases|].
  intros [p Hp]. destruct Hcases as [Hlib|[Hnone _]]; [done|congruence].
Qed.

(** *** [__repr__] *)

Lemma length_append (s1 s2 : string) :
  String.length (s1 +:+ s2) = String.length s1 + String.length s2.
Proof.
  induction s1 as [|a s1 IH]; [done|].
  change (S (String.length (s1 +:+ s2)) = S (String.length s1 + String.length s2)).
  by rewrite IH.
Qed.

Lemma substring_skip (s1 s2 : string) n :
  String.substring (String.length s1) n (s1 +:+ s2) = String.substring 0 n s2.
Proof. induction s1 as [|a s1 IH]; [done|]. exact IH. Qed.

Lemma substring_take (s1 s2 : string) :
  String.substring 0 (String.length s1) (s1 +:+ s2) = s1.
Proof.
  induction s1 as [|a s1 IH]; [by destruct s2|].
  change (String a (String.substring 0 (String.length s1) (s1 +:+ s2)) = String a s1).
  by rewrite IH.
Qed.

(** X14.  The filename can be read back from the repr of a document: it is
    what stands between the 26 characters of the head and the 2 of the
    tail.  So two documents with the same repr have the same filename. *)
Theorem repr_keeps_filename q :
  description_of (repr q) = getFilename q /\
  String.length (repr q) = 28 + String.length (getFilename q) /\
  forall q', repr q = repr q' -> getFilename q = getFilename q'.
Proof.
  assert (forall q0, description_of (repr q0) = getFilename q0) as Hback.
  { intros q0. unfold description_of, repr. rewrite !length_append.
    change (String.length "<pikepdf.PDF description='") with 26.
    change (String.length "'>") with 2.
    replace (26 + (String.length (getFilename q0) + 2) - 28)
      with (String.length (getFilename q0)) by lia.
    change 26 with (String.length "<pikepdf.PDF description='") at 1.
    by rewrite substring_skip, substring_take. }
  split; [apply Hback|]. split.
  - unfold repr. rewrite !length_append. simpl. lia.
  - intros q' Heq. by rewrite <- (Hback q), <- (Hback q'), Heq.
Qed.

(** X15.  The calls a save makes are, in this order, fspath of the
    filename, the opening of the output file, one write with the writer of
    these settings, and the repair helper; it stops at the first that
    fails, and fspath is always called.  So save never writes before the
    output file is open and never reads or processes anything. *)
Theorem save_calls q filename static_id preserve_pdfa :
  exists fn,
    trace (save q filename static_id preserve_pdfa)
      `prefix_of` [EvFspath filename; EvWriterOpen q fn;
                   EvWrite (save_writer q fn static_id); EvRepairPdfa filename] /\
    head (trace (save q filename static_id preserve_pdfa)) = Some (EvFspath filename).
Proof.
  rewrite save_eq.
  destruct (outcome (fsencode_filename filename)) as [fn|e].
  2:{ exists "". split; [|done]. by eexists. }
  exists fn. destruct (QPDFWriter_open q fn) as [[]|e]; simpl.
  2:{ split; [|done]. by eexists. }
  destruct (QPDFWriter_write _) as [[]|e]; simpl.
  2:{ split; [|done]. by eexists. }
  destruct preserve_pdfa; (split; [|done]); by eexists.
Qed.

End SurfaceSpec.

(** *** The theorems at work on the sample runtime *)

Lemma open_pdf_other_keywords_unused_witness :
  same_options (py := sample_runtime)
    {["password" := SStr "owner"]}
    (<["mode" := SStr "rb"]> {["password" := SStr "owner"]}) /\
  sample_open [SStr "enc.pdf"] {["password" := SStr "owner"]}
  = sample_open [SStr "enc.pdf"]
      (<["mode" := SStr "rb"]> {["password" := SStr "owner"]}).
Proof.
  assert (same_options (py := sample_runtime)
            {["password" := SStr "owner"]}
            (<["mode" := SStr "rb"]> {["password" := SStr "owner"]})) as Hsame.
  { intros key Hkey. unfold flag_keys in Hkey. rewrite !elem_of_cons in Hkey.
    destruct Hkey as [->|[->|[->|[->|Hkey]]]]; [..|by apply elem_of_nil in Hkey];
      vm_compute; reflexivity. }
  split; [exact Hsame|].
  apply (open_pdf_other_keywords_unused (py := sample_runtime) (lib := sample_libqpdf)
           _ _ _ Hsame).
Defined.

Lemma open_pdf_processes_as_configured_witness :
  sample_EvProcessFile (mkSampleQpdf false false true None) "plain.pdf" "owner"
    ∈ trace (sample_open [SStr "plain.pdf"]
               (<["suppress_warnings" := SBool false]> {["password" := SStr "owner"]})) /\
  mkSampleQpdf false false true None
  = sample_configured
      (<["suppress_warnings" := SBool false]> {["password" := SStr "owner"]}) /\
  "owner"
  = sample_password_of
      (<["suppress_warnings" := SBool false]> {["password" := SStr "owner"]}).
Proof.
  assert (sample_EvProcessFile (mkSampleQpdf false false true None) "plain.pdf" "owner"
            ∈ trace (sample_open [SStr "plain.pdf"]
                       (<["suppress_warnings" := SBool false]>
                          {["password" := SStr "owner"]}))) as Hin.
  { vm_compute. apply list_elem_of_further, list_elem_of_here. }
  split; [exact Hin|].
  apply (proj2 (open_pdf_processes_as_configured
                  (py := sample_runtime) (lib := sample_libqpdf) _ _ _ Hin)
           _ _ _ eq_refl).
Defined.

Lemma open_pdf_password_cast_error_witness :
  sample_open [SStr "enc.pdf"] {["password" := SInt 7]} = ([], Throw cast_error).
Proof.
  apply (open_pdf_password_cast_error (py := sample_runtime) (lib := sample_libqpdf)
           [SStr "enc.pdf"] {["password" := SInt 7]} (SStr "enc.pdf") (SInt 7));
    [reflexivity|simpl; lia|vm_compute; reflexivity|reflexivity].
Defined.

Lemma open_pdf_flag_type_error_witness :
  sample_open [SStr "plain.pdf"]
    (<["suppress_warnings" := SStr "no"]> {["attempt_recovery" := SInt 1]})
  = ([], Throw (type_error "suppress_warnings: unsupported argument type")).
Proof.
  apply (open_pdf_flag_type_error (py := sample_runtime) (lib := sample_libqpdf)
           [SStr "plain.pdf"] _ (SStr "plain.pdf") "suppress_warnings");
    [reflexivity|simpl; lia|vm_compute; reflexivity|vm_compute; reflexivity].
Defined.

Lemma open_pdf_binary_stream_witness :
  sample_open [SFile false "plain"]
    (<["password" := SStr "owner"]> {["attempt_recovery" := SBool false]})
  = ([sample_EvRead (SFile false "plain");
      sample_EvProcessMemoryFile (mkSampleQpdf true false false None) "plain" "owner"],
     Ok (mkSampleQpdf true false false (Some "plain"))).
Proof.
  rewrite (proj2 (open_pdf_binary_stream (py := sample_runtime) (lib := sample_libqpdf)
                    [SFile false "plain"] _ (SFile false "plain") eq_refl
                    ltac:(simpl; lia) sample_kwargs_convert eq_refl eq_refl eq_refl)
             (SBytes "plain") "plain" eq_refl eq_refl).
  vm_compute. reflexivity.
Defined.

Lemma open_pdf_path_witness :
  sample_open [SStr "enc.pdf"]
    (<["password" := SStr "owner"]> {["attempt_recovery" := SBool false]})
  = ([sample_EvFspath (SStr "enc.pdf");
      sample_EvProcessFile (mkSampleQpdf true false false None) "enc.pdf" "owner"],
     Ok (mkSampleQpdf true false false (Some "enc"))).
Proof.
  rewrite (open_pdf_path (py := sample_runtime) (lib := sample_libqpdf)
             [SStr "enc.pdf"] _ (SStr "enc.pdf") eq_refl);
    [vm_compute; reflexivity|simpl; lia|exact sample_kwargs_convert|left; reflexivity].
Defined.

Lemma save_failure_translation_witness :
  outcome (save (py := sample_runtime) (lib := sample_libqpdf_full_disk)
             (QPDF_new (Libqpdf := sample_libqpdf)) (SStr "out.pdf") true true)
    = Throw (QPDFExc 2 "write failed") /\
  exists fn,
    outcome (fsencode_filename (py := sample_runtime) (lib := sample_libqpdf_full_disk)
               (SStr "out.pdf")) = Ok fn /\
    (QPDFWriter_open (Libqpdf := sample_libqpdf_full_disk)
       (QPDF_new (Libqpdf := sample_libqpdf)) fn = Throw (QPDFExc 2 "write failed") \/
     (QPDFWriter_open (Libqpdf := sample_libqpdf_full_disk)
        (QPDF_new (Libqpdf := sample_libqpdf)) fn = Ok tt /\
      QPDFWriter_write (Libqpdf := sample_libqpdf_full_disk)
        (save_writer (lib := sample_libqpdf_full_disk)
           (QPDF_new (Libqpdf := sample_libqpdf)) fn true)
      = Throw (QPDFExc 2 "write failed"))).
Proof.
  assert (outcome (save (py := sample_runtime) (lib := sample_libqpdf_full_disk)
                     (QPDF_new (Libqpdf := sample_libqpdf)) (SStr "out.pdf") true true)
          = Throw (QPDFExc 2 "write failed")) as Hfail
    by (vm_compute; reflexivity).
  split; [exact Hfail|].
  apply (proj2 (save_failure_translation
                  (py := sample_runtime) (lib := sample_libqpdf_full_disk)
                  _ _ _ _ _ Hfail)).
  vm_compute. by eexists.
Defined.

(** The repr of the sample document opened from "plain.pdf". *)
Example sample_repr :
  repr (lib := sample_libqpdf) (names := sample_names)
    (mkSampleQpdf true false true (Some "plain"))
  = "<pikepdf.PDF description='plain'>".
Proof. reflexivity. Qed.

End SurfaceSpec.
